(** * RestAdapter: request logging and outcome classification

    A shallow embedding of [RestAdapter/rest_adapter.py]: the [RestAdapter]
    class with its constructor, its [log] method and the generic [_do]
    dispatcher behind [get], [post], [put] and [delete].

    Conventions of the embedding.
    - A Python [str] is a [string]; a character is its code point, so the
      text covered is the code points below 256.  [Py.upper] is the one of
      CPython on ASCII and the identity on the code points 128 to 255, where
      CPython also changes the letters among them; no such change yields
      one of the labels this class compares an uppercased text with, so
      what is tested on an uppercased text is exact, and a text built from
      one is exact when the original is ASCII ([is_ascii]).
    - Python built-ins the class relies on ([str.upper], [repr] of a list of
      strings, [str.format]) are embedded in [Module Py], following CPython
      3.10 and later (the class uses [match]) on a 64-bit build.
    - The [requests] session, the file system and [urllib3] are external
      collaborators: an instance of [Environment] gives their behaviour,
      exceptions included.
    - The logger is a sink of records: each call of a [Logger] method
      appends one record (logger, numeric level, message). *)

From Stdlib Require Import ZArith List String Ascii Bool Lia DecimalString.
Import ListNotations.

Local Open Scope string_scope.
Local Open Scope Z_scope.

(** ** Exceptions and results *)

(** The exceptions that occur; a [RequestException] carries its [str(e)]. *)
Inductive exn : Type :=
| RequestException (text : string)
| ValueError (msg : string)
| KeyError (key : string)
| IndexError (msg : string)
| OSError (msg : string).

(** The outcome of a piece of Python code: it returns a value, it raises, or
    it leaves the fragment of Python embedded here ([Unmodelled]; only
    [Py.format] produces it, see [Py.output_markup]). *)
Inductive result (A : Type) : Type :=
| Return (a : A)
| Raise (e : exn)
| Unmodelled.

Arguments Return {A} a.
Arguments Raise {A} e.
Arguments Unmodelled {A}.

(** ** Python built-ins *)

Module Py.

(** Values that reach [str()] in this class. *)
Inductive value : Type :=
| None_
| Bool (b : bool)
| Int (z : Z)
| Str (s : string).

Definition str_of_int (z : Z) : string := NilZero.string_of_int (Z.to_int z).

(** [str(v)], which is also [format(v, "")]. *)
Definition str (v : value) : string :=
  match v with
  | None_ => "None"
  | Bool true => "True"
  | Bool false => "False"
  | Int z => str_of_int z
  | Str s => s
  end.

Definition code (c : ascii) : N := N_of_ascii c.

Definition is_char (c d : ascii) : bool := Ascii.eqb c d.

(** *** [str.upper] *)

Definition upper_char (c : ascii) : ascii :=
  if ((97 <=? code c) && (code c <=? 122))%N
  then ascii_of_N (code c - 32)
  else c.

Fixpoint upper (s : string) : string :=
  match s with
  | EmptyString => EmptyString
  | String c s' => String (upper_char c) (upper s')
  end.

(** *** [repr] of a string and of a list of strings *)

Definition hexdigit (n : N) : ascii :=
  if (n <? 10)%N then ascii_of_N (48 + n) else ascii_of_N (87 + n).

Definition printable (c : ascii) : bool :=
  let n := code c in
  if (n <? 32)%N then false
  else if (n <? 127)%N then true
  else if (n <? 161)%N then false
  else negb (n =? 173)%N.

Fixpoint contains (c : ascii) (s : string) : bool :=
  match s with
  | EmptyString => false
  | String d s' => is_char c d || contains c s'
  end.

Definition backslash : ascii := ascii_of_N 92.
Definition squote : ascii := ascii_of_N 39.
Definition dquote : ascii := ascii_of_N 34.

Definition repr_char (quote c : ascii) : string :=
  if is_char c quote || is_char c backslash then String backslash (String c EmptyString)
  else if is_char c (ascii_of_N 9) then String backslash "t"
  else if is_char c (ascii_of_N 10) then String backslash "n"
  else if is_char c (ascii_of_N 13) then String backslash "r"
  else if printable c then String c EmptyString
  else String backslash
         (String "x" (String (hexdigit (code c / 16))
                        (String (hexdigit (code c mod 16)) EmptyString))).

Fixpoint repr_chars (quote : ascii) (s : string) : string :=
  match s with
  | EmptyString => EmptyString
  | String c s' => repr_char quote c ++ repr_chars quote s'
  end.

(** Single quotes, unless the text has a single quote and no double one. *)
Definition repr (s : string) : string :=
  let quote := if contains squote s && negb (contains dquote s)
               then dquote else squote in
  String quote (repr_chars quote s ++ String quote EmptyString).

(** [sep.join(items)] *)
Fixpoint join (sep : string) (items : list string) : string :=
  match items with
  | [] => ""
  | [x] => x
  | x :: rest => x ++ sep ++ join sep rest
  end.

Definition repr_list (items : list string) : string :=
  "[" ++ join ", " (map repr items) ++ "]".

(** *** [str.format] with keyword arguments only

    The parser follows CPython's [MarkupIterator_next] and [parse_field]
    (Objects/stringlib/unicode_format.h), one character at a time; the
    [mode] says which of their loops the scan is in. *)

Inductive mode : Type :=
| Literal
| FieldName (name : string)
| Bracket (name : string)
| Conversion (name : string)
| AfterConversion (name : string) (conv : ascii)
| FormatSpec (name : string) (conv : option ascii) (depth : nat) (spec : string).

Definition snoc (s : string) (c : ascii) : string := s ++ String c EmptyString.

Definition is_digit (c : ascii) : bool := ((48 <=? code c) && (code c <=? 57))%N.

Definition PY_SSIZE_T_MAX : Z := 2 ^ 63 - 1.

(** [get_integer]: [Some (inl n)] for an index, [Some (inr tt)] for the
    overflow error, [None] for "not an integer" (CPython's -1). *)
Fixpoint get_integer_from (acc : Z) (s : string) : option (Z + unit) :=
  match s with
  | EmptyString => Some (inl acc)
  | String c s' =>
      if is_digit c then
        let digitval := Z.of_N (code c) - 48 in
        if acc >? (PY_SSIZE_T_MAX - digitval) / 10 then Some (inr tt)
        else get_integer_from (acc * 10 + digitval) s'
      else None
  end.

Definition get_integer (s : string) : option (Z + unit) :=
  match s with
  | EmptyString => None
  | _ => get_integer_from 0 s
  end.

(** [field_name_split]: the part before the first ['.'] or ['['], and the
    rest. *)
Fixpoint field_name_split (s : string) : string * string :=
  match s with
  | EmptyString => (EmptyString, EmptyString)
  | String c s' =>
      if is_char c "." || is_char c "[" then (EmptyString, s)
      else let (first, rest) := field_name_split s' in (String c first, rest)
  end.

Fixpoint lookup (key : string) (kwargs : list (string * value)) : option value :=
  match kwargs with
  | [] => None
  | (k, v) :: rest => if String.eqb key k then Some v else lookup key rest
  end.

Definition is_empty (s : string) : bool :=
  match s with EmptyString => true | _ => false end.

Definition out_of_range (index : Z) : exn :=
  IndexError ("Replacement index " ++ str_of_int index
              ++ " out of range for positional args tuple").

(** [output_markup] for one replacement field, with no positional
    arguments.  A field that names a keyword argument and also has an
    attribute or index part, a conversion or a non-empty format spec is
    outside the embedded fragment. *)
Definition output_markup (kwargs : list (string * value))
           (name : string) (conv : option ascii) (spec : string) : result string :=
  let (first, rest) := field_name_split name in
  match get_integer first with
  | Some (inr _) => Raise (ValueError "Too many decimal digits in format string")
  | Some (inl index) => Raise (out_of_range index)
  | None =>
      if is_empty first then Raise (out_of_range 0)
      else
        match lookup first kwargs with
        | None => Raise (KeyError first)
        | Some v =>
            match conv with
            | None => if is_empty rest && is_empty spec then Return (str v)
                      else Unmodelled
            | Some _ => Unmodelled
            end
        end
  end.

Definition single_open : exn := ValueError "Single '{' encountered in format string".
Definition single_close : exn := ValueError "Single '}' encountered in format string".
Definition expected_close : exn := ValueError "expected '}' before end of string".
Definition unmatched_open : exn := ValueError "unmatched '{' in format spec".

Fixpoint do_markup (kwargs : list (string * value)) (m : mode) (out : string)
         (s : string) {struct s} : result string :=
  let field name conv spec rest :=
    match output_markup kwargs name conv spec with
    | Return text => do_markup kwargs Literal (out ++ text) rest
    | Raise e => Raise e
    | Unmodelled => Unmodelled
    end in
  match s with
  | EmptyString =>
      match m with
      | Literal => Return out
      | FieldName _ | Bracket _ => Raise expected_close
      | Conversion _ =>
          Raise (ValueError "end of string while looking for conversion specifier")
      | AfterConversion _ _ | FormatSpec _ _ _ _ => Raise unmatched_open
      end
  | String c s' =>
      match m with
      | Literal =>
          if is_char c "{" then
            match s' with
            | EmptyString => Raise single_open
            | String d s'' =>
                if is_char d "{" then do_markup kwargs Literal (snoc out c) s''
                else do_markup kwargs (FieldName EmptyString) out s'
            end
          else if is_char c "}" then
            match s' with
            | EmptyString => Raise single_close
            | String d s'' =>
                if is_char d "}" then do_markup kwargs Literal (snoc out c) s''
                else Raise single_close
            end
          else do_markup kwargs Literal (snoc out c) s'
      | FieldName name =>
          if is_char c "{" then Raise (ValueError "unexpected '{' in field name")
          else if is_char c "[" then do_markup kwargs (Bracket (snoc name c)) out s'
          else if is_char c "}" then field name None EmptyString s'
          else if is_char c ":" then
            do_markup kwargs (FormatSpec name None 1 EmptyString) out s'
          else if is_char c "!" then do_markup kwargs (Conversion name) out s'
          else do_markup kwargs (FieldName (snoc name c)) out s'
      | Bracket name =>
          if is_char c "]" then do_markup kwargs (FieldName (snoc name c)) out s'
          else do_markup kwargs (Bracket (snoc name c)) out s'
      | Conversion name => do_markup kwargs (AfterConversion name c) out s'
      | AfterConversion name conv =>
          if is_char c "}" then field name (Some conv) EmptyString s'
          else if is_char c ":" then
            do_markup kwargs (FormatSpec name (Some conv) 1 EmptyString) out s'
          else Raise (ValueError "expected ':' after conversion specifier")
      | FormatSpec name conv depth spec =>
          if is_char c "{" then
            do_markup kwargs (FormatSpec name conv (S depth) (snoc spec c)) out s'
          else if is_char c "}" then
            match depth with
            | 1%nat | 0%nat => field name conv spec s'
            | S depth' =>
                do_markup kwargs (FormatSpec name conv depth' (snoc spec c)) out s'
            end
          else do_markup kwargs (FormatSpec name conv depth (snoc spec c)) out s'
      end
  end.

(** [template.format] called with keyword arguments [kwargs] *)
Definition format (template : string) (kwargs : list (string * value)) : result string :=
  do_markup kwargs Literal EmptyString template.

End Py.

(** ** Data of the adapter and of its collaborators *)

Definition Dict : Type := list (string * Py.value).
Definition Headers : Type := list (string * string).

(** A [logging.Logger] is identified by its name, a [requests.Session] by a
    reference into the state of the [requests] library. *)
Definition Logger : Type := string.
Definition SessionRef : Type := nat.

(** The arguments of [Request(method=, url=, headers=, params=, json=)]. *)
Record Request : Type := {
  method : string;
  request_url : string;
  request_headers : Headers;
  params : option Dict;
  json : option Dict
}.

Record Response : Type := {
  status_code : Z;
  reason : string;
  headers : Headers;
  content : string
}.

(** [LOGGING_PATH / Path(log_file)], kept symbolic. *)
Inductive Path : Type :=
| PurePath (p : string)
| JoinPath (parent child : Path).

(** The keyword arguments of [logging.basicConfig]. *)
Record BasicConfig : Type := {
  filename : Path;
  format : string;
  filemode : string;
  level : Z
}.

Record LogRecord : Type := {
  logger : Logger;
  levelno : Z;
  message : string
}.

(** The numeric levels of [logging]. *)
Definition DEBUG : Z := 10.
Definition INFO : Z := 20.
Definition WARNING : Z := 30.
Definition ERROR : Z := 40.
Definition CRITICAL : Z := 50.

(** What the class imports and does not define, over a state [W] of the
    outside world: [LOGGING_PATH] of [local_paths], the module's [__name__],
    the [requests] session ([Session()], [session.headers], and
    [Request(...).prepare()] followed by [session.send], which returns a
    response or raises), [Path.exists] (which answers, or raises an
    [OSError] other than "not found"), [Path.touch] and the opening of the
    log file by the [FileHandler] of [logging.basicConfig] (each may raise:
    an [OSError], or the [ValueError] of a name with a NUL), and
    [urllib3.disable_warnings]. *)
Class Environment (W : Type) : Type := {
  LOGGING_PATH : Path;
  module_name : string;
  new_session : W -> SessionRef * W;
  session_headers : SessionRef -> W -> Headers;
  prepare_and_send : SessionRef -> Request -> W -> (Response + exn) * W;
  path_exists : Path -> W -> bool + exn;
  path_touch : Path -> W -> option exn * W;
  open_log_file : Path -> string -> W -> option exn * W;
  disable_warnings : W -> W
}.

(** The fields of a [RestAdapter] object. *)
Record RestAdapter : Type := {
  url : string;
  session : SessionRef;
  _api_key : string;
  _ssl_verify : bool;
  _logger : Logger
}.

(** Process-wide state: the records handed to loggers so far, the root
    configuration set by [basicConfig], and the outside world. *)
Record Runtime (W : Type) : Type := {
  records : list LogRecord;
  root_config : option BasicConfig;
  world : W
}.

Arguments records {W} r.
Arguments root_config {W} r.
Arguments world {W} r.

(** The state a method runs in: the object it is called on, and the
    runtime. *)
Record State (W : Type) : Type := {
  self : RestAdapter;
  runtime : Runtime W
}.

Arguments self {W} s.
Arguments runtime {W} s.

(** ** A state and exception monad *)

Definition M (S A : Type) : Type := S -> result A * S.

Definition ret {S A : Type} (a : A) : M S A := fun s => (Return a, s).

Definition raise {S A : Type} (e : exn) : M S A := fun s => (Raise e, s).

Definition bind {S A B : Type} (c : M S A) (k : A -> M S B) : M S B :=
  fun s =>
    match c s with
    | (Return a, s') => k a s'
    | (Raise e, s') => (Raise e, s')
    | (Unmodelled, s') => (Unmodelled, s')
    end.

Definition lift_result {S A : Type} (r : result A) : M S A := fun s => (r, s).

(** [try: body except ...: handler]: [handler e] is [None] when no [except]
    clause matches [e]. *)
Definition try_except {S A : Type} (body : M S A) (handler : exn -> option (M S A))
  : M S A :=
  fun s =>
    match body s with
    | (Raise e, s') =>
        match handler e with
        | Some h => h s'
        | None => (Raise e, s')
        end
    | other => other
    end.

Declare Scope py_scope.
Delimit Scope py_scope with py.
Notation "x <- c ;; k" := (bind c (fun x => k))
  (at level 61, c at next level, right associativity) : py_scope.
Notation "c ;; k" := (bind c (fun _ => k))
  (at level 61, right associativity) : py_scope.
Local Open Scope py_scope.

(** ** The class *)

Section RestAdapter.

Context {W : Type} `{Env : Environment W}.

(** *** Primitive effects *)

(** An operation of the outside world, run on the runtime. *)
Definition outside {A : Type} (op : W -> A * W) : M (Runtime W) A :=
  fun rt =>
    let (a, w) := op (world rt) in
    (Return a, {| records := records rt; root_config := root_config rt; world := w |}).

(** A method of the module or of a collaborator, run inside a method of
    the object. *)
Definition global {A : Type} (c : M (Runtime W) A) : M (State W) A :=
  fun s =>
    let (r, rt) := c (runtime s) in
    (r, {| self := self s; runtime := rt |}).

Definition get_self : M (State W) RestAdapter := fun s => (Return (self s), s).

(** [Logger.log(level, msg)]: the sink receives one record. *)
Definition Logger_log (lg : Logger) (level : Z) (msg : string) : M (Runtime W) unit :=
  fun rt =>
    (Return tt,
     {| records := records rt ++ [{| logger := lg; levelno := level; message := msg |}];
        root_config := root_config rt;
        world := world rt |}).

Definition Logger_debug (lg : Logger) (msg : string) : M (Runtime W) unit :=
  Logger_log lg DEBUG msg.

Definition Logger_error (lg : Logger) (msg : string) : M (Runtime W) unit :=
  Logger_log lg ERROR msg.

(** [logging.getLogger(name)] *)
Definition getLogger (name : string) : Logger := name.

(** [logging.basicConfig(...)] does nothing once the root logger is
    configured.  Otherwise it opens the file for its handler, in the given
    mode; when that raises, the root logger stays without configuration. *)
Definition basicConfig (cfg : BasicConfig) : M (Runtime W) unit :=
  fun rt =>
    match root_config rt with
    | Some old =>
        (Return tt,
         {| records := records rt; root_config := Some old; world := world rt |})
    | None =>
        let (failure, w) := open_log_file (filename cfg) (filemode cfg) (world rt) in
        match failure with
        | Some e =>
            (Raise e, {| records := records rt; root_config := None; world := w |})
        | None =>
            (Return tt, {| records := records rt; root_config := Some cfg; world := w |})
        end
    end.

(** [Path.exists()] *)
Definition Path_exists (p : Path) : M (Runtime W) bool :=
  fun rt =>
    match path_exists p (world rt) with
    | inl present => (Return present, rt)
    | inr e => (Raise e, rt)
    end.

(** [Path.touch()] *)
Definition touch (p : Path) : M (Runtime W) unit :=
  failure <- outside (path_touch p) ;;
  match failure with
  | Some e => raise e
  | None => ret tt
  end.

Definition send (sess : SessionRef) (request : Request) : M (Runtime W) Response :=
  outcome <- outside (prepare_and_send sess request) ;;
  match outcome with
  | inl response => ret response
  | inr e => raise e
  end.

(** *** [_logger_config] and [__init__] *)

Definition levels : list (string * Z) :=
  [("DEBUG", DEBUG); ("INFO", INFO); ("WARNING", WARNING);
   ("ERROR", ERROR); ("CRITICAL", CRITICAL)].

Fixpoint getitem (d : list (string * Z)) (key : string) : option Z :=
  match d with
  | [] => None
  | (k, v) :: rest => if String.eqb key k then Some v else getitem rest key
  end.

Definition in_keys (key : string) (d : list (string * Z)) : bool :=
  existsb (String.eqb key) (map fst d).

(** Returns the logger that the method stores in [self._logger]. *)
Definition _logger_config (log_level : string) (logger : option Logger)
           (log_file : option string) : M (Runtime W) Logger :=
  if negb (in_keys log_level levels) then
    raise (ValueError ("Invalid log level " ++ log_level))
  else
    let _logger := match logger with
                   | Some lg => lg
                   | None => getLogger module_name
                   end in
    let log_file := match log_file with
                    | None | Some EmptyString => "panorama_adapter.log"
                    | Some f => f
                    end in
    let full_path := JoinPath LOGGING_PATH (PurePath log_file) in
    present <- Path_exists full_path ;;
    (if negb present then touch full_path else ret tt) ;;
    match getitem levels log_level with
    | None => raise (KeyError log_level)
    | Some lvl =>
        basicConfig {| filename := full_path;
                       format := "%(asctime)s - %(levelname)s - %(message)s";
                       filemode := "a";
                       level := lvl |} ;;
        ret _logger
    end.

(** The constructor: the new object, or the exception raised. *)
Definition __init__ (hostname api_key ver : string) (ssl_verify : bool)
           (logger : option Logger) (log_file : option string) (log_level : string)
  : M (Runtime W) RestAdapter :=
  let url0 := "https://" ++ hostname ++ "/" in
  sess <- outside new_session ;;
  let url1 := if Py.is_empty ver then url0 else url0 ++ ver ++ "/" in
  lg <- _logger_config (Py.upper log_level) logger log_file ;;
  (if negb ssl_verify then outside (fun w => (tt, disable_warnings w)) else ret tt) ;;
  ret {| url := url1; session := sess; _api_key := api_key;
         _ssl_verify := ssl_verify; _logger := lg |}.

(** *** [log] *)

Definition log (level msg : string) : M (State W) unit :=
  this <- get_self ;;
  let subject := Py.upper level in
  if String.eqb subject "FATAL" || String.eqb subject "critical" then
    global (Logger_log (_logger this) 50 msg)
  else if String.eqb subject "ERROR" then
    global (Logger_log (_logger this) 40 msg)
  else if String.eqb subject "WARNING" then
    global (Logger_log (_logger this) 30 msg)
  else if String.eqb subject "INFO" then
    global (Logger_log (_logger this) 20 msg)
  else if String.eqb subject "DEBUG" then
    global (Logger_log (_logger this) 10 msg)
  else
    global (Logger_log (_logger this) 0 msg).

(** *** [_do_logless] and [_do] *)

Definition _do_logless (http_method endpoint : string) (ep_params : option Dict)
  : M (State W) Response :=
  this <- get_self ;;
  let full_url := url this ++ endpoint in
  try_except
    (hdrs <- global (outside (fun w => (session_headers (session this) w, w))) ;;
     global (send (session this)
               {| method := http_method; request_url := full_url;
                  request_headers := hdrs; params := ep_params; json := None |}))
    (fun e => match e with
              | RequestException _ => Some (raise e)
              | _ => None
              end).

(** [[f"{key}: {value}" for key, value in ep_params.items()] if ep_params
    else []]: [None] and the empty dict are both false. *)
Definition log_params (ep_params : option Dict) : list string :=
  match ep_params with
  | Some ((_ :: _) as items) =>
      map (fun '(key, value) => key ++ ": " ++ Py.str value) items
  | _ => []
  end.

Definition log_line_pre (full_url http_method : string) (ep_params : option Dict)
  : string :=
  "method=" ++ http_method ++ ", url=" ++ full_url
  ++ ", params=" ++ Py.repr_list (log_params ep_params).

Definition log_line_post (pre : string) : string :=
  Py.join ", " [pre; "success={success}, status_code={status_code}, message={message}"].

Definition is_success (response : Response) : bool :=
  (299 >=? status_code response) && (status_code response >=? 200).

Definition _do (http_method endpoint : string) (ep_params data : option Dict)
  : M (State W) Response :=
  this <- get_self ;;
  let full_url := url this ++ endpoint in
  let pre := log_line_pre full_url http_method ep_params in
  let post := log_line_post pre in
  response <-
    try_except
      (global (Logger_debug (_logger this) pre) ;;
       hdrs <- global (outside (fun w => (session_headers (session this) w, w))) ;;
       global (send (session this)
                 {| method := http_method; request_url := full_url;
                    request_headers := hdrs; params := ep_params; json := data |}))
      (fun e => match e with
                | RequestException text =>
                    Some (global (Logger_error (_logger this) text) ;; raise e)
                | _ => None
                end) ;;
  let success := is_success response in
  log_line <- lift_result
                (Py.format post [("success", Py.Bool success);
                                 ("status_code", Py.Int (status_code response));
                                 ("message", Py.Str (reason response))]) ;;
  if success then
    global (Logger_debug (_logger this) log_line) ;;
    ret response
  else
    global (Logger_error (_logger this) log_line) ;;
    ret response.

(** *** The HTTP methods *)

Definition get (endpoint : string) (ep_params : option Dict) : M (State W) Response :=
  _do "GET" endpoint ep_params None.

Definition post (endpoint : string) (ep_params data : option Dict)
  : M (State W) Response :=
  _do "POST" endpoint ep_params data.

Definition put (endpoint : string) (ep_params data : option Dict)
  : M (State W) Response :=
  _do "PUT" endpoint ep_params data.

Definition delete (endpoint : string) (ep_params : option Dict)
  : M (State W) Response :=
  _do "DELETE" endpoint ep_params None.

End RestAdapter.

(** ** Vocabulary of the statements *)

Section Vocabulary.

Context {W : Type} `{Env : Environment W}.

(** The request [_do] hands to the session. *)
Definition request_of (s : State W) (http_method endpoint : string)
           (ep_params data : option Dict) : Request :=
  {| method := http_method;
     request_url := url (self s) ++ endpoint;
     request_headers := session_headers (session (self s)) (world (runtime s));
     params := ep_params;
     json := data |}.

(** What the transport answers to that request, and the world it leaves. *)
Definition transmit (s : State W) (http_method endpoint : string)
           (ep_params data : option Dict) : (Response + exn) * W :=
  prepare_and_send (session (self s))
                   (request_of s http_method endpoint ep_params data)
                   (world (runtime s)).

Definition record_of (s : State W) (level : Z) (text : string) : LogRecord :=
  {| logger := _logger (self s); levelno := level; message := text |}.

(** The pre-flight record of a call. *)
Definition pre_flight (s : State W) (http_method endpoint : string)
           (ep_params : option Dict) : LogRecord :=
  record_of s DEBUG (log_line_pre (url (self s) ++ endpoint) http_method ep_params).

(** The state [s] after the call emitted the records [new] and the outside
    world became [w]: the object and the root configuration are those of
    [s]. *)
Definition emitted (s : State W) (new : list LogRecord) (w : W) : State W :=
  {| self := self s;
     runtime := {| records := records (runtime s) ++ new;
                   root_config := root_config (runtime s);
                   world := w |} |}.

(** The keyword arguments of the post-flight [format]. *)
Definition post_kwargs (response : Response) : list (string * Py.value) :=
  [("success", Py.Bool (is_success response));
   ("status_code", Py.Int (status_code response));
   ("message", Py.Str (reason response))].

End Vocabulary.

(** A text without ['{'] and ['}']. *)
Definition brace_free (s : string) : bool :=
  negb (Py.contains "{" s) && negb (Py.contains "}" s).

(** The patterns of the [match] in [log], in order. *)
Definition log_patterns : list string :=
  ["FATAL"; "critical"; "ERROR"; "WARNING"; "INFO"; "DEBUG"].

(** *** A transport for the examples

    The world is the list of requests sent so far; every request gets the
    same [outcome]; the log file never exists, and [touch] and the opening
    of the log file succeed. *)
Definition scripted (outcome : Response + exn) : Environment (list Request) :=
  {| LOGGING_PATH := PurePath "logs";
     module_name := "RestAdapter.rest_adapter";
     new_session := fun w => (0%nat, w);
     session_headers := fun _ _ => [("Accept", "*/*")];
     prepare_and_send := fun _ request w => (outcome, (w ++ [request])%list);
     path_exists := fun _ _ => inl false;
     path_touch := fun _ w => (None, w);
     open_log_file := fun _ _ w => (None, w);
     disable_warnings := fun w => w |}.

Definition ok_200 : Response :=
  {| status_code := 200; reason := "OK"; headers := []; content := "[]" |}.

Definition not_found_404 : Response :=
  {| status_code := 404; reason := "Not Found"; headers := []; content := "" |}.

(** The transport of the examples that name none: every request is
    answered 200 OK. *)
#[export] Instance answers_200 : Environment (list Request) := scripted (inl ok_200).

Definition fresh : Runtime (list Request) :=
  {| records := []; root_config := None; world := [] |}.

Definition adapter : RestAdapter :=
  {| url := "https://host/v1/"; session := 0%nat; _api_key := "secret";
     _ssl_verify := true; _logger := "RestAdapter.rest_adapter" |}.

Definition start : State (list Request) := {| self := adapter; runtime := fresh |}.

(** *** Vocabulary of the further properties *)

(** The state [s] with other credentials in the adapter. *)
Definition with_credentials {W : Type} (s : State W) (api_key : string)
           (ssl_verify : bool) : State W :=
  {| self := {| url := url (self s); session := session (self s);
                _api_key := api_key; _ssl_verify := ssl_verify;
                _logger := _logger (self s) |};
     runtime := runtime s |}.

(** The state [s] after a call that emitted nothing and left the outside
    world as [w]. *)
Definition silent {W : Type} (s : State W) (w : W) : State W :=
  {| self := self s;
     runtime := {| records := records (runtime s);
                   root_config := root_config (runtime s);
                   world := w |} |}.

(** No brace in a key, nor in the text of a value. *)
Definition params_brace_free (ep_params : option Dict) : bool :=
  match ep_params with
  | Some items =>
      forallb (fun '(key, value) => brace_free key && brace_free (Py.str value)) items
  | None => true
  end.

(** The labels [_logger_config] accepts. *)
Definition level_names : list string := ["DEBUG"; "INFO"; "WARNING"; "ERROR"; "CRITICAL"].

(** The path of the log file: [log_file] under [LOGGING_PATH], or the
    default name when [log_file] is [None] or empty. *)
Definition log_path {W : Type} `{Env : Environment W} (log_file : option string) : Path :=
  JoinPath LOGGING_PATH
           (PurePath (match log_file with
                      | None | Some EmptyString => "panorama_adapter.log"
                      | Some f => f
                      end)).

(** The root configuration the constructor asks for. *)
Definition config_for {W : Type} `{Env : Environment W} (log_file : option string)
           (lvl : Z) : BasicConfig :=
  {| filename := log_path log_file;
     format := "%(asctime)s - %(levelname)s - %(message)s";
     filemode := "a";
     level := lvl |}.

(** The runtime [rt] with the outside world replaced by [w]. *)
Definition in_world {W : Type} (rt : Runtime W) (w : W) : Runtime W :=
  {| records := records rt; root_config := root_config rt; world := w |}.

(** A file system for the examples: the log file is [present] or not,
    [touch] fails with an [OSError] of the text [failure] if it is some
    text, and the log file can be opened; requests are answered 200 OK and
    recorded, and disabling the warnings is recorded as a request with the
    method [disable_warnings]. *)
Definition scripted_files (present : bool) (failure : option string)
  : Environment (list Request) :=
  {| LOGGING_PATH := PurePath "logs";
     module_name := "RestAdapter.rest_adapter";
     new_session := fun w => (List.length w, w);
     session_headers := fun _ _ => [("Accept", "*/*")];
     prepare_and_send := fun _ request w => (inl ok_200, (w ++ [request])%list);
     path_exists := fun _ _ => inl present;
     path_touch := fun _ w => (option_map OSError failure, w);
     open_log_file := fun _ _ w => (None, w);
     disable_warnings :=
       fun w => (w ++ [{| method := "disable_warnings"; request_url := EmptyString;
                          request_headers := []; params := None; json := None |}])%list |}.

(** The adapter the constructor builds for the session [sess]. *)
Definition new_adapter {W : Type} `{Env : Environment W} (hostname api_key ver : string)
           (ssl_verify : bool) (logger : option Logger) (sess : SessionRef)
  : RestAdapter :=
  {| url := if Py.is_empty ver then "https://" ++ hostname ++ "/"
            else ("https://" ++ hostname ++ "/") ++ ver ++ "/";
     session := sess;
     _api_key := api_key;
     _ssl_verify := ssl_verify;
     _logger := match logger with
                | Some lg => lg
                | None => module_name
                end |}.

(** A text of ASCII characters only. *)
Fixpoint is_ascii (s : string) : bool :=
  match s with
  | EmptyString => true
  | String c s' => (Py.code c <? 128)%N && is_ascii s'
  end.

(** The environment [E] with another [Path.touch]. *)
Definition with_touch {W : Type} (E : Environment W)
           (other : Path -> W -> option exn * W) : Environment W :=
  {| LOGGING_PATH := @LOGGING_PATH W E;
     module_name := @module_name W E;
     new_session := @new_session W E;
     session_headers := @session_headers W E;
     prepare_and_send := @prepare_and_send W E;
     path_exists := @path_exists W E;
     path_touch := other;
     open_log_file := @open_log_file W E;
     disable_warnings := @disable_warnings W E |}.

(** The environment [E] with another [urllib3.disable_warnings]. *)
Definition with_disable_warnings {W : Type} (E : Environment W) (other : W -> W)
  : Environment W :=
  {| LOGGING_PATH := @LOGGING_PATH W E;
     module_name := @module_name W E;
     new_session := @new_session W E;
     session_headers := @session_headers W E;
     prepare_and_send := @prepare_and_send W E;
     path_exists := @path_exists W E;
     path_touch := @path_touch W E;
     open_log_file := @open_log_file W E;
     disable_warnings := other |}.

(** A name with a NUL in it, and a file system that treats such names as
    pathlib does: [exists] answers false, [touch] and the opening of the
    file raise [ValueError]; the other files exist and can be opened. *)
Definition nul_name : string := String "a" (String (ascii_of_N 0) "b").

Fixpoint has_nul (p : Path) : bool :=
  match p with
  | PurePath name => Py.contains (ascii_of_N 0) name
  | JoinPath parent child => has_nul parent || has_nul child
  end.

Definition nul_files : Environment (list Request) :=
  {| LOGGING_PATH := PurePath "logs";
     module_name := "RestAdapter.rest_adapter";
     new_session := fun w => (0%nat, w);
     session_headers := fun _ _ => [];
     prepare_and_send := fun _ request w => (inl ok_200, (w ++ [request])%list);
     path_exists := fun p _ => inl (negb (has_nul p));
     path_touch :=
       fun p w => (if has_nul p then Some (ValueError "embedded null byte") else None, w);
     open_log_file :=
       fun p _ w => (if has_nul p then Some (ValueError "embedded null byte") else None, w);
     disable_warnings := fun w => w |}.

(** A file system in which the log file exists and is a directory: opening
    it raises an [OSError]. *)
Definition directory_files : Environment (list Request) :=
  {| LOGGING_PATH := PurePath "logs";
     module_name := "RestAdapter.rest_adapter";
     new_session := fun w => (0%nat, w);
     session_headers := fun _ _ => [];
     prepare_and_send := fun _ request w => (inl ok_200, (w ++ [request])%list);
     path_exists := fun _ _ => inl true;
     path_touch := fun _ w => (None, w);
     open_log_file := fun _ _ w => (Some (OSError "Is a directory"), w);
     disable_warnings :=
       fun w => (w ++ [{| method := "disable_warnings"; request_url := EmptyString;
                          request_headers := []; params := None; json := None |}])%list |}.

(** ** Properties *)

Section Strings.

Lemma append_assoc (a b c : string) : ((a ++ b) ++ c = a ++ (b ++ c))%string.
Proof. induction a as [|x a IH]; simpl; [reflexivity | now rewrite IH]. Qed.

Lemma append_nil_r (a : string) : (a ++ EmptyString)%string = a.
Proof. induction a as [|x a IH]; simpl; [reflexivity | now rewrite IH]. Qed.

Lemma snoc_append (a b : string) (c : ascii) :
  (Py.snoc a c ++ b)%string = (a ++ String c b)%string.
Proof. unfold Py.snoc. now rewrite append_assoc. Qed.

Lemma brace_free_cons (c : ascii) (s : string) :
  brace_free (String c s) = true ->
  Py.is_char "{" c = false /\ Py.is_char "}" c = false /\ brace_free s = true.
Proof.
  unfold brace_free; cbn [Py.contains].
  destruct (Py.is_char "{" c), (Py.is_char "}" c); cbn [orb negb andb]; intros H.
  - discriminate H.
  - discriminate H.
  - rewrite andb_false_r in H. discriminate H.
  - repeat split; assumption.
Qed.

Lemma is_char_sym (c d : ascii) : Py.is_char c d = Py.is_char d c.
Proof. apply Ascii.eqb_sym. Qed.

(** Literal text without braces is copied to the output. *)
Lemma do_markup_literal kwargs (lit : string) :
  brace_free lit = true ->
  forall out rest,
    Py.do_markup kwargs Py.Literal out (lit ++ rest)
    = Py.do_markup kwargs Py.Literal (out ++ lit) rest.
Proof.
  induction lit as [|c lit IH]; intros Hfree out rest.
  - simpl. now rewrite append_nil_r.
  - apply brace_free_cons in Hfree as (Hopen & Hclose & Hfree).
    rewrite (is_char_sym "{" c) in Hopen. rewrite (is_char_sym "}" c) in Hclose.
    cbn [append Py.do_markup]. rewrite Hopen, Hclose.
    rewrite (IH Hfree). now rewrite snoc_append.
Qed.

End Strings.

Section Dispatch.

Context {W : Type} `{Env : Environment W}.

#[local] Arguments log_line_pre : simpl never.
#[local] Arguments log_line_post : simpl never.
#[local] Arguments Py.format : simpl never.

(** Runs the monadic code of [_do] up to the call of the transport. *)
Ltac run_do :=
  unfold _do, try_except, send, global, outside, Logger_debug, Logger_error,
    Logger_log, lift_result, get_self, bind, ret, raise;
  cbn.

(** The post-flight template formats as intended when the text spliced into
    it has no brace. *)
Lemma format_post_line (pre : string) (response : Response) :
  brace_free pre = true ->
  Py.format (log_line_post pre) (post_kwargs response)
  = Return (pre ++ ", success=" ++ Py.str (Py.Bool (is_success response))
                ++ ", status_code=" ++ Py.str_of_int (status_code response)
                ++ ", message=" ++ reason response)%string.
Proof.
  intros Hfree. unfold Py.format, log_line_post. cbn [Py.join].
  rewrite (do_markup_literal _ pre Hfree).
  cbn. unfold Py.snoc.
  repeat rewrite append_assoc. cbn [append]. reflexivity.
Qed.

(** What [_do] does once the transport has answered with a response. *)
Lemma _do_response (s : State W) (http_method endpoint : string)
      (ep_params data : option Dict) (response : Response) (w : W) :
  transmit s http_method endpoint ep_params data = (inl response, w) ->
  _do http_method endpoint ep_params data s
  = match Py.format (log_line_post (message (pre_flight s http_method endpoint ep_params)))
                    (post_kwargs response) with
    | Return line =>
        (Return response,
         emitted s [pre_flight s http_method endpoint ep_params;
                    record_of s (if is_success response then DEBUG else ERROR) line] w)
    | Raise e => (Raise e, emitted s [pre_flight s http_method endpoint ep_params] w)
    | Unmodelled => (Unmodelled, emitted s [pre_flight s http_method endpoint ep_params] w)
    end.
Proof.
  unfold transmit, request_of. intros Hsend.
  run_do. rewrite Hsend. cbn. unfold post_kwargs, emitted, pre_flight, record_of. cbn.
  destruct (Py.format _ _) as [line|e|]; cbn; try reflexivity.
  destruct (is_success response); cbn; rewrite <- app_assoc; reflexivity.
Qed.

(** What [_do] does when the transport raises a [RequestException]. *)
Lemma _do_request_exception (s : State W) (http_method endpoint : string)
      (ep_params data : option Dict) (text : string) (w : W) :
  transmit s http_method endpoint ep_params data = (inr (RequestException text), w) ->
  _do http_method endpoint ep_params data s
  = (Raise (RequestException text),
     emitted s [pre_flight s http_method endpoint ep_params; record_of s ERROR text] w).
Proof.
  unfold transmit, request_of. intros Hsend.
  run_do. rewrite Hsend. cbn. unfold emitted, pre_flight, record_of. cbn.
  rewrite <- app_assoc. reflexivity.
Qed.

(** Any other exception of the transport passes through the [try]. *)
Lemma _do_other_exception (s : State W) (http_method endpoint : string)
      (ep_params data : option Dict) (e : exn) (w : W) :
  transmit s http_method endpoint ep_params data = (inr e, w) ->
  (forall text, e <> RequestException text) ->
  _do http_method endpoint ep_params data s
  = (Raise e, emitted s [pre_flight s http_method endpoint ep_params] w).
Proof.
  unfold transmit, request_of. intros Hsend Hother.
  run_do. rewrite Hsend. cbn.
  destruct e as [text| | | |]; try reflexivity.
  now destruct (Hother text).
Qed.

(** The three ways a call of [_do] can go, by what the transport did. *)
Lemma _do_outcomes (s : State W) (http_method endpoint : string)
      (ep_params data : option Dict) :
  exists (outcome : result Response) (after : list LogRecord) (w : W),
    _do http_method endpoint ep_params data s
    = (outcome, emitted s (pre_flight s http_method endpoint ep_params :: after) w).
Proof.
  destruct (transmit s http_method endpoint ep_params data) as [[response|e] w] eqn:Hsend.
  - rewrite (_do_response _ _ _ _ _ _ _ Hsend).
    destruct (Py.format _ _); eauto.
  - destruct e as [text| | | |];
      try (rewrite (_do_other_exception _ _ _ _ _ _ _ Hsend); [eauto | discriminate]).
    rewrite (_do_request_exception _ _ _ _ _ _ _ Hsend). eauto.
Qed.

(** Without a brace in the pre-flight line, a response is logged and handed
    back as the docstring of [_do] describes. *)
Lemma _do_brace_free (s : State W) (http_method endpoint : string)
      (ep_params data : option Dict) (response : Response) (w : W) :
  transmit s http_method endpoint ep_params data = (inl response, w) ->
  brace_free (message (pre_flight s http_method endpoint ep_params)) = true ->
  _do http_method endpoint ep_params data s
  = (Return response,
     emitted s
       [pre_flight s http_method endpoint ep_params;
        record_of s (if is_success response then DEBUG else ERROR)
          (message (pre_flight s http_method endpoint ep_params)
           ++ ", success=" ++ (if is_success response then "True" else "False")
           ++ ", status_code=" ++ Py.str_of_int (status_code response)
           ++ ", message=" ++ reason response)]
       w).
Proof.
  intros Hsend Hfree.
  rewrite (_do_response _ _ _ _ _ _ _ Hsend), (format_post_line _ _ Hfree).
  cbn [Py.str]. destruct (is_success response); reflexivity.
Qed.

(** C1: when the transport returns a response, [_do] classifies it as a
    success exactly when its status code lies in 200..299, both ends
    included; the rule reads the status code only, whatever the HTTP method,
    and it decides the severity of the post-flight record of every call that
    returns. *)
Theorem _do_classifies_by_status (s : State W) (http_method endpoint : string)
        (ep_params data : option Dict) (response : Response) (w : W) :
  transmit s http_method endpoint ep_params data = (inl response, w) ->
  (is_success response = true <-> 200 <= status_code response <= 299)
  /\ (status_code response = 200 \/ status_code response = 299 ->
      is_success response = true)
  /\ (forall returned s',
         _do http_method endpoint ep_params data s = (Return returned, s') ->
         exists line,
           s' = emitted s
                  [pre_flight s http_method endpoint ep_params;
                   record_of s
                     (if (200 <=? status_code response) && (status_code response <=? 299)
                      then DEBUG else ERROR)
                     line]
                  w).
Proof.
  intros Hsend.
  assert (Hiff : is_success response = true <-> 200 <= status_code response <= 299)
    by (unfold is_success; rewrite andb_true_iff, !Z.geb_le; lia).
  split; [exact Hiff | split].
  - intros Hedge. apply Hiff. lia.
  - intros returned s' Hcall.
    rewrite (_do_response _ _ _ _ _ _ _ Hsend) in Hcall.
    destruct (Py.format _ _) as [line| |]; try discriminate Hcall.
    injection Hcall as _ <-. exists line.
    replace ((200 <=? status_code response) && (status_code response <=? 299))
      with (is_success response); [reflexivity |].
    unfold is_success. rewrite !Z.geb_leb. apply andb_comm.
Qed.

(** C3: when the transport raises a transport-level error, the call emits
    the pre-flight record and then one ERROR record whose text is that of
    the error, emits no post-flight record, calls the transport once, and
    raises the same error. *)
Theorem _do_propagates_transport_error (s : State W) (http_method endpoint : string)
        (ep_params data : option Dict) (text : string) (w : W) :
  transmit s http_method endpoint ep_params data = (inr (RequestException text), w) ->
  _do http_method endpoint ep_params data s
  = (Raise (RequestException text),
     emitted s
       [pre_flight s http_method endpoint ep_params;
        {| logger := _logger (self s); levelno := ERROR; message := text |}]
       w).
Proof. exact (_do_request_exception s http_method endpoint ep_params data text w). Qed.

(** C6: the first record of every call is the pre-flight line, at DEBUG: the
    method, the full URL and the list of the parameters, each rendered as
    key, colon, space, value; with no parameters ([None]) or an empty dict
    the list is rendered [[]]. *)
Theorem _do_pre_flight_line (s : State W) (http_method endpoint : string)
        (ep_params data : option Dict) :
  (exists (outcome : result Response) (after : list LogRecord) (w : W),
      _do http_method endpoint ep_params data s
      = (outcome,
         emitted s
           ({| logger := _logger (self s);
               levelno := DEBUG;
               message :=
                 "method=" ++ http_method ++ ", url=" ++ (url (self s) ++ endpoint)
                 ++ ", params="
                 ++ Py.repr_list
                      (map (fun '(key, value) => key ++ ": " ++ Py.str value)
                           (match ep_params with Some items => items | None => [] end))
             |} :: after)
           w))
  /\ (ep_params = None \/ ep_params = Some [] ->
      message (pre_flight s http_method endpoint ep_params)
      = "method=" ++ http_method ++ ", url=" ++ (url (self s) ++ endpoint)
        ++ ", params=[]").
Proof.
  split.
  - destruct (_do_outcomes s http_method endpoint ep_params data)
      as (outcome & after & w & Hcall).
    exists outcome, after, w. rewrite Hcall. unfold pre_flight, record_of, log_line_pre.
    destruct ep_params as [[|item items]|]; reflexivity.
  - intros [-> | ->]; reflexivity.
Qed.

(** C8: a call of [_do], [get], [post], [put] or [delete] leaves the fields of
    the adapter (url, session, api key, ssl_verify, logger) as they were,
    whether it returns or raises. *)
Theorem calls_leave_adapter_unchanged (s : State W) (http_method endpoint : string)
        (ep_params data : option Dict) :
  self (snd (_do http_method endpoint ep_params data s)) = self s
  /\ self (snd (get endpoint ep_params s)) = self s
  /\ self (snd (post endpoint ep_params data s)) = self s
  /\ self (snd (put endpoint ep_params data s)) = self s
  /\ self (snd (delete endpoint ep_params s)) = self s.
Proof.
  assert (Hdo : forall m d, self (snd (_do m endpoint ep_params d s)) = self s).
  { intros m d.
    destruct (_do_outcomes s m endpoint ep_params d) as (outcome & after & w & ->).
    reflexivity. }
  unfold get, post, put, delete. repeat split; apply Hdo.
Qed.

End Dispatch.

Section Levels.

Context {W : Type} `{Env : Environment W}.

(** [str.upper] never yields the letter of the lowercase pattern of [log]. *)
Lemma upper_char_not_lower_c (c : ascii) : Py.upper_char c <> "c"%char.
Proof.
  destruct c as [[] [] [] [] [] [] [] []]; vm_compute; discriminate.
Qed.

Lemma upper_not_critical (level : string) : Py.upper level <> "critical".
Proof.
  destruct level as [|c level]; cbn [Py.upper]; [discriminate |].
  intros H. injection H as Hc _. exact (upper_char_not_lower_c c Hc).
Qed.

(** Runs the monadic code of [log]. *)
Ltac run_log :=
  unfold log, bind, get_self, global, Logger_log, emitted, record_of; cbn.

(** What [log] does, arm by arm. *)
Lemma log_arms (s : State W) (level msg : string) :
  log level msg s
  = (Return tt,
     emitted s
       [record_of s
          (if String.eqb (Py.upper level) "FATAL" then 50
           else if String.eqb (Py.upper level) "ERROR" then 40
           else if String.eqb (Py.upper level) "WARNING" then 30
           else if String.eqb (Py.upper level) "INFO" then 20
           else if String.eqb (Py.upper level) "DEBUG" then 10
           else 0)
          msg]
       (world (runtime s))).
Proof.
  run_log.
  destruct (String.eqb_spec (Py.upper level) "critical") as [Hlow|_];
    [now destruct (upper_not_critical level) |].
  rewrite orb_false_r.
  repeat (destruct (String.eqb (Py.upper level) _); [reflexivity |]).
  reflexivity.
Qed.


(** C7: a label that no pattern of the [match] in [log] recognises does not
    make [log] raise: the message is handed to the logger at level 0. *)
Theorem log_unrecognised_label (s : State W) (level msg : string) :
  ~ In (Py.upper level) log_patterns ->
  log level msg s
  = (Return tt,
     emitted s [{| logger := _logger (self s); levelno := 0; message := msg |}]
             (world (runtime s))).
Proof.
  intros Hnot. rewrite log_arms.
  assert (Hmiss : forall pattern, In pattern log_patterns ->
                                  String.eqb (Py.upper level) pattern = false).
  { intros pattern Hin. apply String.eqb_neq. intros Heq. apply Hnot. now rewrite Heq. }
  rewrite !Hmiss by (unfold log_patterns; simpl; tauto).
  reflexivity.
Qed.

(** C9: the label CRITICAL, in any letter case, is logged at level 0, since
    the first arm names FATAL and a lowercase pattern that an uppercased
    label never equals; level 50 is used for FATAL and for nothing else. *)
Theorem log_critical_at_level_0 (s : State W) (level msg : string) :
  Py.upper level = "CRITICAL" ->
  log level msg s
  = (Return tt,
     emitted s [{| logger := _logger (self s); levelno := 0; message := msg |}]
             (world (runtime s)))
  /\ (forall other : string,
         log other msg s
         = (Return tt,
            emitted s [{| logger := _logger (self s); levelno := 50; message := msg |}]
                    (world (runtime s)))
         <-> Py.upper other = "FATAL").
Proof.
  intros Hlevel. split.
  - rewrite log_arms, Hlevel. reflexivity.
  - intros other. rewrite log_arms. split.
    + intros H. injection H as H. apply app_inv_head in H. injection H as H.
      destruct (String.eqb_spec (Py.upper other) "FATAL") as [Heq|_]; [exact Heq |].
      repeat (destruct (String.eqb (Py.upper other) _); [discriminate H |]).
      discriminate H.
    + intros ->. reflexivity.
Qed.

End Levels.

Section Constructor.

Context {W : Type} `{Env : Environment W}.

Lemma in_keys_levels (log_level : string) :
  in_keys log_level levels = true
  <-> In log_level ["DEBUG"; "INFO"; "WARNING"; "ERROR"; "CRITICAL"].
Proof.
  unfold in_keys. rewrite existsb_exists. cbn [levels map fst]. split.
  - intros (k & Hin & Heq). apply String.eqb_eq in Heq. now subst k.
  - intros Hin. exists log_level. split; [exact Hin | apply String.eqb_refl].
Qed.

(** An unknown level is refused before anything else happens. *)
Lemma _logger_config_invalid (log_level : string) (logger : option Logger)
      (log_file : option string) (rt : Runtime W) :
  in_keys log_level levels = false ->
  _logger_config log_level logger log_file rt
  = (Raise (ValueError ("Invalid log level " ++ log_level)), rt).
Proof. intros Hin. unfold _logger_config. rewrite Hin. reflexivity. Qed.

Lemma getitem_levels_known (log_level : string) :
  in_keys log_level levels = true -> exists n, getitem levels log_level = Some n.
Proof.
  intros Hin. apply in_keys_levels in Hin. cbn in Hin.
  decompose [or] Hin; try contradiction; subst log_level; eexists; reflexivity.
Qed.

(** The constructor, step by step: the session, the level check, the look
    at the log file, [touch] when it is missing, [basicConfig] (which opens
    the file when the root logger is not configured yet), and
    [disable_warnings] when ssl_verify is false. *)
Lemma __init___steps (hostname api_key ver : string) (ssl_verify : bool)
      (logger : option Logger) (log_file : option string) (log_level : string)
      (rt : Runtime W) :
  __init__ hostname api_key ver ssl_verify logger log_file log_level rt
  = let (sess, w1) := new_session (world rt) in
    if in_keys (Py.upper log_level) levels then
      match path_exists (log_path log_file) w1 with
      | inr e => (Raise e, in_world rt w1)
      | inl present =>
          match (if present then (None, w1) else path_touch (log_path log_file) w1) with
          | (Some e, w2) => (Raise e, in_world rt w2)
          | (None, w2) =>
              match getitem levels (Py.upper log_level) with
              | None => (Raise (KeyError (Py.upper log_level)), in_world rt w2)
              | Some n =>
                  match root_config rt with
                  | Some old =>
                      (Return (new_adapter hostname api_key ver ssl_verify logger sess),
                       in_world rt (if ssl_verify then w2 else disable_warnings w2))
                  | None =>
                      match open_log_file (log_path log_file) "a" w2 with
                      | (Some e, w3) => (Raise e, in_world rt w3)
                      | (None, w3) =>
                          (Return (new_adapter hostname api_key ver ssl_verify logger sess),
                           {| records := records rt;
                              root_config := Some (config_for log_file n);
                              world := if ssl_verify then w3 else disable_warnings w3 |})
                      end
                  end
              end
          end
      end
    else (Raise (ValueError ("Invalid log level " ++ Py.upper log_level)), in_world rt w1).
Proof.
  unfold __init__, _logger_config, Path_exists, touch, basicConfig, getLogger, bind,
    outside, ret, raise, in_world, config_for, log_path, new_adapter.
  cbv zeta.
  destruct (new_session (world rt)) as [sess w1]. cbn [world records root_config].
  destruct (in_keys (Py.upper log_level) levels); cbn [negb]; [| reflexivity].
  cbn [world records root_config].
  destruct (path_exists _ w1) as [present|e]; [| reflexivity].
  destruct present; cbn [negb world records root_config].
  - destruct (getitem levels (Py.upper log_level)); [| reflexivity].
    cbn [world records root_config filename filemode].
    destruct (root_config rt).
    + destruct ssl_verify; reflexivity.
    + destruct (open_log_file _ _ w1) as [[e|] w3]; [reflexivity |].
      destruct ssl_verify; reflexivity.
  - destruct (path_touch _ w1) as [[e|] w2]; [reflexivity |].
    cbn [world records root_config].
    destruct (getitem levels (Py.upper log_level)); [| reflexivity].
    cbn [world records root_config filename filemode].
    destruct (root_config rt).
    + destruct ssl_verify; reflexivity.
    + destruct (open_log_file _ _ w2) as [[e|] w3]; [reflexivity |].
      destruct ssl_verify; reflexivity.
Qed.

End Constructor.

Section Validation.

Context {W : Type} `{Env : Environment W}.

(** C10: the constructor raises [ValueError] from its level check exactly
    when the uppercased [log_level] is not one of DEBUG, INFO, WARNING,
    ERROR, CRITICAL: these are the levels for which it raises [ValueError]
    whatever the session, the files and the root logger are.  With another
    level it raises before anything but the session exists.  With one of
    the five, in any letter case, nothing is raised by the level check: an
    exception that leaves the constructor is one that the look at the log
    file, its [touch] or its opening raised. *)
Theorem constructor_validates_log_level (hostname api_key ver : string)
        (ssl_verify : bool) (logger : option Logger) (log_file : option string)
        (log_level : string) (rt : Runtime W) :
  ((forall (W' : Type) (Env' : Environment W') (rt0 : Runtime W'),
       exists msg rt1,
         @__init__ W' Env' hostname api_key ver ssl_verify logger log_file log_level rt0
         = (Raise (ValueError msg), rt1))
   <-> ~ In (Py.upper log_level) ["DEBUG"; "INFO"; "WARNING"; "ERROR"; "CRITICAL"])
  /\ (~ In (Py.upper log_level) ["DEBUG"; "INFO"; "WARNING"; "ERROR"; "CRITICAL"] ->
      exists msg,
        __init__ hostname api_key ver ssl_verify logger log_file log_level rt
        = (Raise (ValueError msg), in_world rt (snd (new_session (world rt)))))
  /\ (In (Py.upper log_level) ["DEBUG"; "INFO"; "WARNING"; "ERROR"; "CRITICAL"] ->
      forall e rt',
        __init__ hostname api_key ver ssl_verify logger log_file log_level rt
        = (Raise e, rt') ->
        exists w w',
          path_exists (log_path log_file) w = inr e
          \/ path_touch (log_path log_file) w = (Some e, w')
          \/ open_log_file (log_path log_file) "a" w = (Some e, w')).
Proof.
  assert (Hrefused :
            forall (W' : Type) (Env' : Environment W') (rt0 : Runtime W'),
              in_keys (Py.upper log_level) levels = false ->
              exists msg,
                @__init__ W' Env' hostname api_key ver ssl_verify logger log_file
                          log_level rt0
                = (Raise (ValueError msg),
                   in_world rt0 (snd (@new_session W' Env' (world rt0))))).
  { intros W' Env' rt0 Hin. rewrite (@__init___steps W' Env').
    destruct (@new_session W' Env' (world rt0)) as [sess w1]. rewrite Hin. eauto. }
  destruct (in_keys (Py.upper log_level) levels) eqn:Hin.
  - assert (Hknown : In (Py.upper log_level)
                        ["DEBUG"; "INFO"; "WARNING"; "ERROR"; "CRITICAL"])
      by now apply in_keys_levels.
    split; [split | split].
    + intros Halways. exfalso.
      destruct (Halways (list Request) (scripted (inl ok_200)) fresh)
        as (msg & rt1 & Hcall).
      rewrite (@__init___steps (list Request) (scripted (inl ok_200))) in Hcall.
      cbn [scripted new_session path_exists path_touch open_log_file world fresh
                    root_config] in Hcall.
      rewrite Hin in Hcall.
      destruct (getitem_levels_known _ Hin) as (n & Hn). rewrite Hn in Hcall.
      discriminate Hcall.
    + intros Hnot. contradiction.
    + intros Hnot. contradiction.
    + intros _ e rt'. rewrite __init___steps.
      destruct (new_session (world rt)) as [sess w1]. rewrite Hin.
      destruct (getitem_levels_known _ Hin) as (n & ->).
      destruct (path_exists (log_path log_file) w1) as [present|e0] eqn:Hexists.
      * destruct present.
        -- destruct (root_config rt); [discriminate |].
           destruct (open_log_file (log_path log_file) "a" w1) as [[e1|] w3] eqn:Hopen;
             [| discriminate].
           intros [= <- _]. exists w1, w3. right; right; exact Hopen.
        -- destruct (path_touch (log_path log_file) w1) as [[e1|] w2] eqn:Htouch.
           ++ intros [= <- _]. exists w1, w2. right; left; exact Htouch.
           ++ destruct (root_config rt); [discriminate |].
              destruct (open_log_file (log_path log_file) "a" w2) as [[e1|] w3] eqn:Hopen;
                [| discriminate].
              intros [= <- _]. exists w2, w3. right; right; exact Hopen.
      * intros [= <- _]. exists w1, w1. left; exact Hexists.
  - assert (Hnot : ~ In (Py.upper log_level)
                      ["DEBUG"; "INFO"; "WARNING"; "ERROR"; "CRITICAL"]).
    { intros Hknown. apply in_keys_levels in Hknown. congruence. }
    split; [split | split].
    + intros _. exact Hnot.
    + intros _ W' Env' rt0. destruct (Hrefused W' Env' rt0 eq_refl) as (msg & Hcall).
      eauto.
    + intros _. exact (Hrefused W Env rt eq_refl).
    + intros Hknown. contradiction.
Qed.

End Validation.

(** ** The scenarios of the specification, and the calls that go wrong *)

Section Scenarios.

(** GET of [items] with an empty dict, answered 200 OK. *)
Example scenario_get_200 :
  get "items" (Some []) start
  = (Return ok_200,
     emitted start
       [record_of start DEBUG "method=GET, url=https://host/v1/items, params=[]";
        record_of start DEBUG
          "method=GET, url=https://host/v1/items, params=[], success=True, status_code=200, message=OK"]
       [request_of start "GET" "items" (Some []) None]).
Proof. vm_compute. reflexivity. Qed.

(** The same call answered 404 Not Found: the response comes back, and the
    post-flight record is an ERROR. *)
Example scenario_get_404 :
  @get _ (scripted (inl not_found_404)) "items" (Some [("page", Py.Int 2)]) start
  = (Return not_found_404,
     emitted start
       [record_of start DEBUG "method=GET, url=https://host/v1/items, params=['page: 2']";
        record_of start ERROR
          "method=GET, url=https://host/v1/items, params=['page: 2'], success=False, status_code=404, message=Not Found"]
       [request_of start "GET" "items" (Some [("page", Py.Int 2)]) None]).
Proof. vm_compute. reflexivity. Qed.

(** C2: with the endpoint [items/{id}] the transport returns 200 OK, and
    [_do] does not return the response: formatting the post-flight line
    raises [KeyError] for the field [id]. *)
Theorem _do_raises_on_braced_endpoint :
  transmit start "GET" "items/{id}" None None
  = (inl ok_200, [request_of start "GET" "items/{id}" None None])
  /\ _do "GET" "items/{id}" None None start
     = (Raise (KeyError "id"),
        emitted start
          [record_of start DEBUG "method=GET, url=https://host/v1/items/{id}, params=[]"]
          [request_of start "GET" "items/{id}" None None]).
Proof. split; vm_compute; reflexivity. Qed.

(** C4: with a parameter value [{a}] the transport returns 200 OK, and the
    call emits the pre-flight record only: no post-flight record and no
    error record follows it. *)
Theorem _do_emits_no_post_flight_on_braced_parameter :
  transmit start "POST" "items" (Some [("filter", Py.Str "{a}")]) None
  = (inl ok_200, [request_of start "POST" "items" (Some [("filter", Py.Str "{a}")]) None])
  /\ records (runtime (snd (_do "POST" "items" (Some [("filter", Py.Str "{a}")]) None start)))
     = [record_of start DEBUG
          "method=POST, url=https://host/v1/items, params=['filter: {a}']"]
  /\ fst (_do "POST" "items" (Some [("filter", Py.Str "{a}")]) None start)
     = Raise (KeyError "a").
Proof. repeat split; vm_compute; reflexivity. Qed.

(** C5: with the endpoint [items/{{id}}] the post-flight line is not the
    pre-flight line extended: [format] turns each doubled brace of the
    pre-flight text into a single one. *)
Theorem _do_post_flight_line_unescapes_braces :
  _do "GET" "items/{{id}}" None None start
  = (Return ok_200,
     emitted start
       [record_of start DEBUG "method=GET, url=https://host/v1/items/{{id}}, params=[]";
        record_of start DEBUG
          "method=GET, url=https://host/v1/items/{id}, params=[], success=True, status_code=200, message=OK"]
       [request_of start "GET" "items/{{id}}" None None]).
Proof. vm_compute. reflexivity. Qed.

(** A transport error: connection refused. *)
Lemma _do_propagates_transport_error_witness :
  @transmit _ (scripted (inr (RequestException "connection refused")))
            start "GET" "items" None None
  = (inr (RequestException "connection refused"),
     [@request_of _ answers_200 start "GET" "items" None None])
  /\ @_do _ (scripted (inr (RequestException "connection refused")))
          "GET" "items" None None start
     = (Raise (RequestException "connection refused"),
        emitted start
          [record_of start DEBUG "method=GET, url=https://host/v1/items, params=[]";
           record_of start ERROR "connection refused"]
          [@request_of _ answers_200 start "GET" "items" None None]).
Proof.
  split; [reflexivity |].
  exact (@_do_propagates_transport_error
           _ (scripted (inr (RequestException "connection refused")))
           start "GET" "items" None None "connection refused"
           [@request_of _ answers_200 start "GET" "items" None None] eq_refl).
Defined.

(** A 404 answer is classified as a failure and logged as an ERROR. *)
Lemma _do_classifies_by_status_witness :
  @transmit _ (scripted (inl not_found_404)) start "DELETE" "items/7" None None
  = (inl not_found_404, [request_of start "DELETE" "items/7" None None])
  /\ (is_success not_found_404 = true <-> 200 <= 404 <= 299)
  /\ exists line,
      snd (@delete _ (scripted (inl not_found_404)) "items/7" None start)
      = emitted start
          [pre_flight start "DELETE" "items/7" None; record_of start ERROR line]
          [request_of start "DELETE" "items/7" None None].
Proof.
  pose proof (@_do_classifies_by_status
                _ (scripted (inl not_found_404))
                start "DELETE" "items/7" None None not_found_404
                [request_of start "DELETE" "items/7" None None] eq_refl)
    as (Hiff & _ & Hrecord).
  split; [reflexivity | split; [exact Hiff |]].
  destruct (Hrecord not_found_404
              (snd (@delete _ (scripted (inl not_found_404)) "items/7" None start))
              eq_refl) as (line & Hline).
  exists line. exact Hline.
Defined.

(** The label [verbose] matches no pattern. *)
Lemma log_unrecognised_label_witness :
  ~ In (Py.upper "verbose") log_patterns
  /\ log "verbose" "started" start
     = (Return tt, emitted start [record_of start 0 "started"] []).
Proof.
  assert (Hnot : ~ In (Py.upper "verbose") log_patterns).
  { vm_compute. intros H. decompose [or] H; try discriminate; assumption. }
  split; [exact Hnot |].
  exact (log_unrecognised_label start "verbose" "started" Hnot).
Defined.

(** The label [Critical] is logged at level 0, [fatal] at level 50. *)
Lemma log_critical_at_level_0_witness :
  Py.upper "Critical" = "CRITICAL"
  /\ log "Critical" "disk full" start
     = (Return tt, emitted start [record_of start 0 "disk full"] [])
  /\ log "fatal" "disk full" start
     = (Return tt, emitted start [record_of start 50 "disk full"] []).
Proof.
  pose proof (log_critical_at_level_0 start "Critical" "disk full" eq_refl)
    as (Hzero & Hfifty).
  split; [reflexivity | split; [exact Hzero |]].
  apply (Hfifty "fatal"). reflexivity.
Defined.

(** A call without braces: GET of [items] with two parameters, answered 200. *)
Lemma _do_brace_free_witness :
  transmit start "GET" "items" (Some [("page", Py.Int 2); ("q", Py.Str "tea")]) None
  = (inl ok_200,
     [request_of start "GET" "items" (Some [("page", Py.Int 2); ("q", Py.Str "tea")]) None])
  /\ brace_free
       (message (pre_flight start "GET" "items"
                            (Some [("page", Py.Int 2); ("q", Py.Str "tea")]))) = true
  /\ _do "GET" "items" (Some [("page", Py.Int 2); ("q", Py.Str "tea")]) None start
     = (Return ok_200,
        emitted start
          [record_of start DEBUG
             "method=GET, url=https://host/v1/items, params=['page: 2', 'q: tea']";
           record_of start DEBUG
             "method=GET, url=https://host/v1/items, params=['page: 2', 'q: tea'], success=True, status_code=200, message=OK"]
          [request_of start "GET" "items"
                      (Some [("page", Py.Int 2); ("q", Py.Str "tea")]) None]).
Proof.
  split; [reflexivity | split; [reflexivity |]].
  exact (_do_brace_free start "GET" "items"
           (Some [("page", Py.Int 2); ("q", Py.Str "tea")]) None ok_200
           [request_of start "GET" "items"
                       (Some [("page", Py.Int 2); ("q", Py.Str "tea")]) None]
           eq_refl eq_refl).
Defined.

End Scenarios.

(** ** Further properties of the dispatcher *)

Section Calls.

Context {W : Type} `{Env : Environment W}.

#[local] Arguments log_line_pre : simpl never.
#[local] Arguments log_line_post : simpl never.
#[local] Arguments Py.format : simpl never.

(** [_do_logless] logs nothing: it hands one request without a body to the
    transport and returns its response, or raises its exception, of
    whatever class; the adapter and the root configuration stay as they
    were. *)
Theorem _do_logless_is_silent (s : State W) (http_method endpoint : string)
        (ep_params : option Dict) :
  _do_logless http_method endpoint ep_params s
  = match transmit s http_method endpoint ep_params None with
    | (inl response, w) => (Return response, silent s w)
    | (inr e, w) => (Raise e, silent s w)
    end.
Proof.
  unfold transmit, request_of, _do_logless, try_except, send, global, outside,
    get_self, bind, ret, raise, silent.
  cbn.
  destruct (prepare_and_send _ _ _) as [[response|e] w]; cbn; [reflexivity |].
  destruct e; reflexivity.
Qed.

(** Every call transmits exactly once, whatever the outcome: the outside
    world after the call is the one left by a single transmission of the
    request, and the root configuration is untouched.  [get] and [delete]
    send no body, [post] and [put] send [data]. *)
Theorem calls_transmit_once (s : State W) (http_method endpoint : string)
        (ep_params data : option Dict) :
  world (runtime (snd (_do http_method endpoint ep_params data s)))
  = snd (transmit s http_method endpoint ep_params data)
  /\ root_config (runtime (snd (_do http_method endpoint ep_params data s)))
     = root_config (runtime s)
  /\ world (runtime (snd (get endpoint ep_params s)))
     = snd (transmit s "GET" endpoint ep_params None)
  /\ world (runtime (snd (post endpoint ep_params data s)))
     = snd (transmit s "POST" endpoint ep_params data)
  /\ world (runtime (snd (put endpoint ep_params data s)))
     = snd (transmit s "PUT" endpoint ep_params data)
  /\ world (runtime (snd (delete endpoint ep_params s)))
     = snd (transmit s "DELETE" endpoint ep_params None).
Proof.
  assert (Hdo : forall m d,
             exists outcome new,
               _do m endpoint ep_params d s
               = (outcome, emitted s new (snd (transmit s m endpoint ep_params d)))).
  { intros m d.
    destruct (transmit s m endpoint ep_params d) as [[response|e] w] eqn:Hsend.
    - rewrite (_do_response _ _ _ _ _ _ _ Hsend).
      destruct (Py.format _ _); eauto.
    - destruct e as [text| | | |];
        try (rewrite (_do_other_exception _ _ _ _ _ _ _ Hsend); [eauto | discriminate]).
      rewrite (_do_request_exception _ _ _ _ _ _ _ Hsend). eauto. }
  unfold get, post, put, delete.
  repeat split;
    match goal with
    | |- context [_do ?m _ _ ?d _] =>
        destruct (Hdo m d) as (outcome & new & ->); reflexivity
    end.
Qed.

(** A call appends to the log and never rewrites it: after the pre-flight
    record comes at most one more record, on the logger of the adapter, at
    DEBUG or at ERROR. *)
Theorem _do_appends_records (s : State W) (http_method endpoint : string)
        (ep_params data : option Dict) :
  exists after : list LogRecord,
    records (runtime (snd (_do http_method endpoint ep_params data s)))
    = (records (runtime s) ++ pre_flight s http_method endpoint ep_params :: after)%list
    /\ (List.length after <= 1)%nat
    /\ Forall (fun r => logger r = _logger (self s)
                        /\ (levelno r = DEBUG \/ levelno r = ERROR)) after.
Proof.
  destruct (transmit s http_method endpoint ep_params data) as [[response|e] w] eqn:Hsend.
  - rewrite (_do_response _ _ _ _ _ _ _ Hsend).
    destruct (Py.format _ _) as [line| |].
    + eexists. split; [reflexivity | split; [cbn; lia |]].
      constructor; [| constructor]. cbn. destruct (is_success response); auto.
    + exists []. split; [reflexivity | split; [cbn; lia | constructor]].
    + exists []. split; [reflexivity | split; [cbn; lia | constructor]].
  - destruct e as [text| | | |];
      try (rewrite (_do_other_exception _ _ _ _ _ _ _ Hsend); [| discriminate];
           exists []; split; [reflexivity | split; [cbn; lia | constructor]]).
    rewrite (_do_request_exception _ _ _ _ _ _ _ Hsend).
    eexists. split; [reflexivity | split; [cbn; lia |]].
    constructor; [| constructor]. cbn. auto.
Qed.

(** Whenever [_do] returns, the value is the response of the transport, and
    the call emitted two records: the pre-flight one and the formatted
    post-flight line, at DEBUG for a success and at ERROR otherwise. *)
Theorem _do_returns_the_transport_response (s s' : State W)
        (http_method endpoint : string) (ep_params data : option Dict)
        (returned : Response) :
  _do http_method endpoint ep_params data s = (Return returned, s') ->
  fst (transmit s http_method endpoint ep_params data) = inl returned
  /\ exists line,
      Py.format (log_line_post (message (pre_flight s http_method endpoint ep_params)))
                (post_kwargs returned) = Return line
      /\ s' = emitted s
                [pre_flight s http_method endpoint ep_params;
                 record_of s (if is_success returned then DEBUG else ERROR) line]
                (snd (transmit s http_method endpoint ep_params data)).
Proof.
  intros Hcall.
  destruct (transmit s http_method endpoint ep_params data) as [[response|e] w] eqn:Hsend.
  - rewrite (_do_response _ _ _ _ _ _ _ Hsend) in Hcall.
    destruct (Py.format _ _) as [line| |] eqn:Hformat; try discriminate Hcall.
    injection Hcall as <- <-. split; [reflexivity |].
    exists line. split; [exact Hformat | reflexivity].
  - exfalso. destruct e as [text| | | |];
      try (rewrite (_do_other_exception _ _ _ _ _ _ _ Hsend) in Hcall;
           [discriminate Hcall | discriminate]).
    rewrite (_do_request_exception _ _ _ _ _ _ _ Hsend) in Hcall. discriminate Hcall.
Qed.

(** An exception of the transport that is not a [RequestException] is not
    caught: it leaves [_do] with the pre-flight record as the only record
    of the call, without an ERROR record. *)
Theorem _do_does_not_log_other_exceptions (s : State W) (http_method endpoint : string)
        (ep_params data : option Dict) (e : exn) (w : W) :
  transmit s http_method endpoint ep_params data = (inr e, w) ->
  (forall text, e <> RequestException text) ->
  fst (_do http_method endpoint ep_params data s) = Raise e
  /\ records (runtime (snd (_do http_method endpoint ep_params data s)))
     = (records (runtime s) ++ [pre_flight s http_method endpoint ep_params])%list
  /\ world (runtime (snd (_do http_method endpoint ep_params data s))) = w.
Proof.
  intros Hsend Hother.
  rewrite (_do_other_exception _ _ _ _ _ _ _ Hsend Hother).
  repeat split.
Qed.

(** The API key and the ssl_verify flag stored in the adapter play no part
    in a call: with other values in these two fields, [_do] and
    [_do_logless] have the same outcome, send the same request and emit the
    same records. *)
Theorem calls_ignore_credentials (s : State W) (api_key : string) (ssl_verify : bool)
        (http_method endpoint : string) (ep_params data : option Dict) :
  request_of (with_credentials s api_key ssl_verify) http_method endpoint ep_params data
  = request_of s http_method endpoint ep_params data
  /\ fst (_do http_method endpoint ep_params data (with_credentials s api_key ssl_verify))
     = fst (_do http_method endpoint ep_params data s)
  /\ runtime (snd (_do http_method endpoint ep_params data
                       (with_credentials s api_key ssl_verify)))
     = runtime (snd (_do http_method endpoint ep_params data s))
  /\ fst (_do_logless http_method endpoint ep_params (with_credentials s api_key ssl_verify))
     = fst (_do_logless http_method endpoint ep_params s)
  /\ runtime (snd (_do_logless http_method endpoint ep_params
                               (with_credentials s api_key ssl_verify)))
     = runtime (snd (_do_logless http_method endpoint ep_params s)).
Proof.
  split; [reflexivity |].
  assert (Hdo : fst (_do http_method endpoint ep_params data
                         (with_credentials s api_key ssl_verify))
                = fst (_do http_method endpoint ep_params data s)
                /\ runtime (snd (_do http_method endpoint ep_params data
                                     (with_credentials s api_key ssl_verify)))
                   = runtime (snd (_do http_method endpoint ep_params data s))).
  { destruct (transmit s http_method endpoint ep_params data) as [[response|e] w] eqn:Hsend.
    - rewrite (_do_response s _ _ _ _ _ _ Hsend).
      rewrite (_do_response (with_credentials s api_key ssl_verify) _ _ _ _ _ _ Hsend).
      change (message (pre_flight (with_credentials s api_key ssl_verify)
                                  http_method endpoint ep_params))
        with (message (pre_flight s http_method endpoint ep_params)).
      destruct (Py.format _ _); split; reflexivity.
    - destruct e as [text| | | |];
        try (rewrite (_do_other_exception s _ _ _ _ _ _ Hsend) by discriminate;
             rewrite (_do_other_exception (with_credentials s api_key ssl_verify)
                        _ _ _ _ _ _ Hsend) by discriminate;
             split; reflexivity).
      rewrite (_do_request_exception s _ _ _ _ _ _ Hsend).
      rewrite (_do_request_exception (with_credentials s api_key ssl_verify)
                 _ _ _ _ _ _ Hsend).
      split; reflexivity. }
  destruct Hdo as (Hfst & Hsnd). split; [exact Hfst | split; [exact Hsnd |]].
  unfold _do_logless, try_except, send, global, outside, get_self, bind, ret, raise.
  cbn.
  destruct (prepare_and_send _ _ _) as [[response|e] w]; cbn; [split; reflexivity |].
  destruct e; split; reflexivity.
Qed.

End Calls.

(** ** Which calls are free of braces *)

Section Braces.

Context {W : Type} `{Env : Environment W}.

Lemma contains_append (c : ascii) (a b : string) :
  Py.contains c (a ++ b) = Py.contains c a || Py.contains c b.
Proof.
  induction a as [|x a IH]; cbn [append Py.contains]; [reflexivity |].
  now rewrite IH, orb_assoc.
Qed.

Lemma brace_free_append (a b : string) :
  brace_free (a ++ b) = brace_free a && brace_free b.
Proof.
  unfold brace_free. rewrite !contains_append.
  destruct (Py.contains "{" a), (Py.contains "}" a), (Py.contains "{" b),
    (Py.contains "}" b); reflexivity.
Qed.

(** Escaping a character neither adds nor removes a brace. *)
Lemma brace_free_repr_char (quote c : ascii) :
  brace_free (Py.repr_char quote c) = brace_free (String c EmptyString).
Proof.
  unfold Py.repr_char.
  destruct (Py.is_char c quote); cbn [orb];
    destruct c as [[] [] [] [] [] [] [] []]; vm_compute; reflexivity.
Qed.

Lemma brace_free_repr_chars (quote : ascii) (s : string) :
  brace_free (Py.repr_chars quote s) = brace_free s.
Proof.
  induction s as [|c s IH]; cbn [Py.repr_chars]; [reflexivity |].
  rewrite brace_free_append, brace_free_repr_char, IH.
  change (String c s) with (String c EmptyString ++ s).
  now rewrite brace_free_append.
Qed.

Lemma brace_free_repr (s : string) : brace_free (Py.repr s) = brace_free s.
Proof.
  unfold Py.repr.
  destruct (Py.contains Py.squote s && negb (Py.contains Py.dquote s));
    match goal with
    | |- brace_free (String ?q (?body ++ ?tail)) = _ =>
        change (String q (body ++ tail)) with (String q EmptyString ++ (body ++ tail))
    end;
    rewrite !brace_free_append, brace_free_repr_chars;
    cbn; now rewrite andb_true_r.
Qed.

Lemma brace_free_join (items : list string) :
  brace_free (Py.join ", " items) = forallb brace_free items.
Proof.
  induction items as [|x [|y rest] IH].
  - reflexivity.
  - cbn. now rewrite andb_true_r.
  - change (Py.join ", " (x :: y :: rest)) with (x ++ ", " ++ Py.join ", " (y :: rest)).
    rewrite !brace_free_append, IH. reflexivity.
Qed.

Lemma brace_free_repr_list (items : list string) :
  brace_free (Py.repr_list items) = forallb brace_free items.
Proof.
  unfold Py.repr_list. rewrite !brace_free_append, brace_free_join.
  cbn [brace_free Py.contains Py.is_char Ascii.eqb Bool.eqb negb orb andb].
  rewrite andb_true_r.
  induction items as [|x items IH]; cbn [map forallb]; [reflexivity |].
  now rewrite brace_free_repr, IH.
Qed.

Lemma brace_free_log_params (ep_params : option Dict) :
  forallb brace_free (log_params ep_params) = params_brace_free ep_params.
Proof.
  destruct ep_params as [items|]; [| reflexivity].
  assert (Hmap : log_params (Some items)
                 = map (fun '(key, value) => key ++ ": " ++ Py.str value) items)
    by (destruct items; reflexivity).
  rewrite Hmap. clear Hmap. unfold params_brace_free.
  induction items as [|[key value] items IH]; cbn [map forallb]; [reflexivity |].
  rewrite IH, !brace_free_append. reflexivity.
Qed.

(** The pre-flight line has no brace exactly when the method, the URL and
    the keys and values of the parameters have none. *)
Lemma brace_free_log_line_pre (full_url http_method : string) (ep_params : option Dict) :
  brace_free (log_line_pre full_url http_method ep_params)
  = brace_free http_method && brace_free full_url && params_brace_free ep_params.
Proof.
  unfold log_line_pre.
  rewrite !brace_free_append, brace_free_repr_list, brace_free_log_params.
  cbn. now rewrite andb_assoc.
Qed.

(** The decimal text of an integer has no brace. *)
Lemma brace_free_str_of_int (z : Z) : brace_free (Py.str_of_int z) = true.
Proof.
  assert (Hdigits : forall d, brace_free (NilEmpty.string_of_uint d) = true).
  { induction d; cbn [NilEmpty.string_of_uint]; try reflexivity;
      match goal with
      | |- brace_free (String ?c ?rest) = true =>
          change (String c rest) with (String c EmptyString ++ rest);
          rewrite brace_free_append, IHd; reflexivity
      end. }
  unfold Py.str_of_int, NilZero.string_of_int, NilZero.string_of_uint.
  destruct (Z.to_int z) as [d|d].
  - destruct d; try reflexivity; apply Hdigits.
  - change (brace_free (String "-" EmptyString
                        ++ match d with Decimal.Nil => "0" | _ => NilEmpty.string_of_uint d end)
            = true).
    rewrite brace_free_append.
    destruct d; try reflexivity; cbn [andb brace_free]; apply Hdigits.
Qed.

(** When the method, the URL of the adapter, the endpoint and the keys and
    values of the parameters contain no brace, a response of the transport
    is returned unchanged after the pre-flight record and one post-flight
    record, which extends the pre-flight text. *)
Theorem _do_with_brace_free_inputs (s : State W) (http_method endpoint : string)
        (ep_params data : option Dict) (response : Response) (w : W) :
  transmit s http_method endpoint ep_params data = (inl response, w) ->
  brace_free http_method = true ->
  brace_free (url (self s)) = true ->
  brace_free endpoint = true ->
  params_brace_free ep_params = true ->
  _do http_method endpoint ep_params data s
  = (Return response,
     emitted s
       [pre_flight s http_method endpoint ep_params;
        record_of s (if is_success response then DEBUG else ERROR)
          (message (pre_flight s http_method endpoint ep_params)
           ++ ", success=" ++ (if is_success response then "True" else "False")
           ++ ", status_code=" ++ Py.str_of_int (status_code response)
           ++ ", message=" ++ reason response)]
       w).
Proof.
  intros Hsend Hmethod Hurl Hendpoint Hparams.
  assert (Hfree : brace_free (message (pre_flight s http_method endpoint ep_params)) = true).
  { unfold pre_flight, record_of. cbn [message].
    rewrite brace_free_log_line_pre, brace_free_append.
    now rewrite Hmethod, Hurl, Hendpoint, Hparams. }
  rewrite (_do_response _ _ _ _ _ _ _ Hsend), (format_post_line _ _ Hfree).
  cbn [Py.str]. destruct (is_success response); reflexivity.
Qed.

End Braces.

(** ** Further properties of [log] *)

Section Labels.

Context {W : Type} `{Env : Environment W}.

(** [log] and the constructor agree on DEBUG, INFO, WARNING and ERROR: a
    label that the table [levels] of [_logger_config] maps to a level, and
    that is not CRITICAL, is logged at that level. *)
Theorem log_uses_the_levels_of_the_constructor (s : State W) (level msg : string)
        (n : Z) :
  getitem levels (Py.upper level) = Some n ->
  Py.upper level <> "CRITICAL" ->
  log level msg s
  = (Return tt, emitted s [record_of s n msg] (world (runtime s))).
Proof.
  intros Hlevel Hnot. rewrite log_arms. revert Hlevel. cbn [getitem levels].
  destruct (String.eqb_spec (Py.upper level) "DEBUG") as [->|_];
    [intros [= <-]; reflexivity |].
  destruct (String.eqb_spec (Py.upper level) "INFO") as [->|_];
    [intros [= <-]; reflexivity |].
  destruct (String.eqb_spec (Py.upper level) "WARNING") as [->|_];
    [intros [= <-]; reflexivity |].
  destruct (String.eqb_spec (Py.upper level) "ERROR") as [->|_];
    [intros [= <-]; reflexivity |].
  destruct (String.eqb_spec (Py.upper level) "CRITICAL") as [Heq|_];
    [contradiction | discriminate].
Qed.

(** [log] never raises: it hands exactly one record to the logger of the
    adapter, with the message as given and a level among 50, 40, 30, 20, 10
    and 0, and changes nothing else; two labels that differ in letter case
    only are logged alike. *)
Theorem log_emits_one_record (s : State W) (level msg : string) :
  (exists n,
      In n [50; 40; 30; 20; 10; 0]
      /\ log level msg s
         = (Return tt,
            emitted s [{| logger := _logger (self s); levelno := n; message := msg |}]
                    (world (runtime s))))
  /\ (forall other : string,
         Py.upper other = Py.upper level -> log other msg s = log level msg s).
Proof.
  split.
  - rewrite log_arms. unfold record_of.
    repeat (destruct (String.eqb (Py.upper level) _);
            [eexists; split; [| reflexivity]; cbn; tauto |]).
    eexists; split; [| reflexivity]; cbn; tauto.
  - intros other Hsame. rewrite !log_arms, Hsame. reflexivity.
Qed.

End Labels.

(** ** Further properties of the constructor *)

Section Construction.

Context {W : Type} `{Env : Environment W}.

Lemma in_keys_level_names (log_level : string) :
  in_keys log_level levels = true <-> In log_level level_names.
Proof. apply in_keys_levels. Qed.

(** Splits a goal about [__init__] into the ways the constructor can go. *)
Ltac init_cases :=
  rewrite ?__init___steps;
  destruct (new_session _) as [sess w1];
  destruct (in_keys _ levels) eqn:Hin;
  [ destruct (path_exists _ w1) as [present|failure] eqn:Hexists;
    [ destruct (if present then _ else _) as [[failure|] w2] eqn:Htouch;
      [ | destruct (getitem levels _) as [n|] eqn:Hlevel;
          [ destruct (root_config _) as [old|] eqn:Hroot;
            [ | destruct (open_log_file _ _ w2) as [[failure|] w3] eqn:Hopen ]
          | ] ]
    | ]
  | ].

(** An unknown level is refused before anything is configured: no record,
    no root configuration, no file looked at or touched, no warning
    disabled; only the session was created.  The text of the error names
    the uppercased level. *)
Theorem constructor_rejects_before_configuring (hostname api_key ver : string)
        (ssl_verify : bool) (logger : option Logger) (log_file : option string)
        (log_level : string) (rt : Runtime W) :
  ~ In (Py.upper log_level) level_names ->
  exists msg,
    __init__ hostname api_key ver ssl_verify logger log_file log_level rt
    = (Raise (ValueError msg), in_world rt (snd (new_session (world rt))))
    /\ (is_ascii log_level = true ->
        msg = "Invalid log level " ++ Py.upper log_level).
Proof.
  intros Hnot. rewrite __init___steps.
  destruct (new_session (world rt)) as [sess w1].
  destruct (in_keys (Py.upper log_level) levels) eqn:Hin.
  - apply in_keys_level_names in Hin. contradiction.
  - eexists. split; [reflexivity | intros _; reflexivity].
Qed.


(** A construction that succeeds logs nothing, and asks for the root
    configuration of its level, log file and append mode; the request takes
    effect only when the root logger was not configured before, so a second
    adapter does not change the level or the file of the first. *)
Theorem constructor_configures_logging_once (hostname api_key ver : string)
        (ssl_verify : bool) (logger : option Logger) (log_file : option string)
        (log_level : string) (rt rt' : Runtime W) (built : RestAdapter) :
  __init__ hostname api_key ver ssl_verify logger log_file log_level rt
  = (Return built, rt') ->
  records rt' = records rt
  /\ exists n,
      getitem levels (Py.upper log_level) = Some n
      /\ root_config rt'
         = match root_config rt with
           | Some old => Some old
           | None =>
               Some {| filename :=
                         JoinPath LOGGING_PATH
                                  (PurePath (match log_file with
                                             | None | Some EmptyString =>
                                                 "panorama_adapter.log"
                                             | Some f => f
                                             end));
                       format := "%(asctime)s - %(levelname)s - %(message)s";
                       filemode := "a";
                       level := n |}
           end.
Proof.
  rewrite __init___steps.
  destruct (new_session (world rt)) as [sess w1].
  destruct (in_keys (Py.upper log_level) levels); [| discriminate].
  destruct (path_exists (log_path log_file) w1) as [present|failure]; [| discriminate].
  destruct (if present then _ else _) as [[failure|] w2]; [discriminate |].
  destruct (getitem levels (Py.upper log_level)) as [n|]; [| discriminate].
  destruct (root_config rt) as [old|] eqn:Hroot.
  - intros [= _ <-]. split; [reflexivity |]. exists n. split; [reflexivity |].
    cbn [in_world root_config]. exact Hroot.
  - destruct (open_log_file (log_path log_file) "a" w2) as [[failure|] w3];
      [discriminate |].
    intros [= _ <-]. split; [reflexivity |]. exists n. split; reflexivity.
Qed.

(** [Path.touch] is called only when the log file does not exist, and
    [urllib3.disable_warnings] only when ssl_verify is false, as the last
    step of a construction that succeeds: with an existing file the
    constructor does the same whatever [touch] would do; with ssl_verify
    true it does the same whatever [disable_warnings] would do; and with
    ssl_verify false it raises what it raises with true, or returns the
    same adapter but for the flag, in the same runtime with the warnings
    disabled last. *)
Theorem constructor_touches_missing_file_only (hostname api_key ver : string)
        (ssl_verify : bool) (logger : option Logger) (log_file : option string)
        (log_level : string) (rt : Runtime W) :
  (path_exists (log_path log_file) (snd (new_session (world rt))) = inl true ->
   forall other_touch,
     @__init__ W (with_touch Env other_touch)
               hostname api_key ver ssl_verify logger log_file log_level rt
     = __init__ hostname api_key ver ssl_verify logger log_file log_level rt)
  /\ (forall other_disable,
         @__init__ W (with_disable_warnings Env other_disable)
                   hostname api_key ver true logger log_file log_level rt
         = __init__ hostname api_key ver true logger log_file log_level rt)
  /\ (forall e rt',
         __init__ hostname api_key ver true logger log_file log_level rt = (Raise e, rt') ->
         __init__ hostname api_key ver false logger log_file log_level rt = (Raise e, rt'))
  /\ (forall built rt',
         __init__ hostname api_key ver true logger log_file log_level rt
         = (Return built, rt') ->
         __init__ hostname api_key ver false logger log_file log_level rt
         = (Return {| url := url built; session := session built;
                      _api_key := _api_key built; _ssl_verify := false;
                      _logger := _logger built |},
            in_world rt' (disable_warnings (world rt')))).
Proof.
  split; [| split; [| split]].
  - intros Hexists other_touch.
    rewrite (@__init___steps W (with_touch Env other_touch)), __init___steps.
    change (@new_session W (with_touch Env other_touch)) with (@new_session W Env).
    destruct (new_session (world rt)) as [sess w1]. cbn [snd] in Hexists.
    change (@path_exists W (with_touch Env other_touch)
                         (@log_path W (with_touch Env other_touch) log_file) w1)
      with (path_exists (log_path log_file) w1).
    rewrite Hexists. reflexivity.
  - intros other_disable.
    rewrite (@__init___steps W (with_disable_warnings Env other_disable)), __init___steps.
    reflexivity.
  - intros e rt'. init_cases; try discriminate; intros [= <- <-]; reflexivity.
  - intros built rt'. init_cases; try discriminate; intros [= <- <-]; reflexivity.
Qed.

(** With a known level and a missing log file, an exception of [touch]
    leaves the constructor as it is: the root logger is not configured and
    the warnings are not disabled, whatever ssl_verify is. *)
Theorem constructor_propagates_touch_failure (hostname api_key ver : string)
        (ssl_verify : bool) (logger : option Logger) (log_file : option string)
        (log_level : string) (rt : Runtime W) (e : exn) (w2 : W) :
  In (Py.upper log_level) level_names ->
  path_exists (log_path log_file) (snd (new_session (world rt))) = inl false ->
  path_touch (log_path log_file) (snd (new_session (world rt))) = (Some e, w2) ->
  __init__ hostname api_key ver ssl_verify logger log_file log_level rt
  = (Raise e, in_world rt w2).
Proof.
  intros Hknown. apply in_keys_level_names in Hknown.
  rewrite __init___steps.
  destruct (new_session (world rt)) as [sess w1]. cbn [snd].
  rewrite Hknown. intros -> ->. reflexivity.
Qed.

(** The API key is stored in the adapter and nowhere else: with another key
    the constructor leaves the same runtime (session, files, root
    configuration, records) and raises the same exception or returns the
    same adapter but for the key. *)
Theorem constructor_only_stores_the_api_key (hostname key1 key2 ver : string)
        (ssl_verify : bool) (logger : option Logger) (log_file : option string)
        (log_level : string) (rt : Runtime W) :
  snd (__init__ hostname key1 ver ssl_verify logger log_file log_level rt)
  = snd (__init__ hostname key2 ver ssl_verify logger log_file log_level rt)
  /\ (forall e,
         fst (__init__ hostname key1 ver ssl_verify logger log_file log_level rt) = Raise e ->
         fst (__init__ hostname key2 ver ssl_verify logger log_file log_level rt) = Raise e)
  /\ (forall built,
         fst (__init__ hostname key1 ver ssl_verify logger log_file log_level rt)
         = Return built ->
         _api_key built = key1
         /\ fst (__init__ hostname key2 ver ssl_verify logger log_file log_level rt)
            = Return {| url := url built; session := session built; _api_key := key2;
                        _ssl_verify := _ssl_verify built; _logger := _logger built |}).
Proof.
  init_cases;
    (split; [reflexivity | split; cbn [fst]];
     [ intros e H; first [exact H | discriminate H]
     | intros built H; try discriminate H; injection H as <-; split; reflexivity ]).
Qed.

End Construction.

(** ** Examples of the further properties *)

Section Examples.

(** A 404 answer to a PUT is returned to the caller. *)
Lemma _do_returns_the_transport_response_witness :
  @put _ (scripted (inl not_found_404)) "items/7" None (Some [("name", Py.Str "tea")]) start
  = (Return not_found_404,
     emitted start
       [record_of start DEBUG "method=PUT, url=https://host/v1/items/7, params=[]";
        record_of start ERROR
          "method=PUT, url=https://host/v1/items/7, params=[], success=False, status_code=404, message=Not Found"]
       [request_of start "PUT" "items/7" None (Some [("name", Py.Str "tea")])])
  /\ fst (@transmit _ (scripted (inl not_found_404)) start "PUT" "items/7" None
                    (Some [("name", Py.Str "tea")]))
     = inl not_found_404.
Proof.
  assert (Hcall :
            @_do _ (scripted (inl not_found_404)) "PUT" "items/7" None
                 (Some [("name", Py.Str "tea")]) start
            = (Return not_found_404,
               emitted start
                 [record_of start DEBUG "method=PUT, url=https://host/v1/items/7, params=[]";
                  record_of start ERROR
                    "method=PUT, url=https://host/v1/items/7, params=[], success=False, status_code=404, message=Not Found"]
                 [request_of start "PUT" "items/7" None (Some [("name", Py.Str "tea")])]))
    by (vm_compute; reflexivity).
  split; [exact Hcall |].
  exact (proj1 (@_do_returns_the_transport_response
                  _ (scripted (inl not_found_404)) start _ "PUT" "items/7" None
                  (Some [("name", Py.Str "tea")]) not_found_404 Hcall)).
Defined.

(** A [ValueError] of the transport passes through without an ERROR record. *)
Lemma _do_does_not_log_other_exceptions_witness :
  @transmit _ (scripted (inr (ValueError "bad chunk"))) start "GET" "items" None None
  = (inr (ValueError "bad chunk"), [request_of start "GET" "items" None None])
  /\ (forall text, ValueError "bad chunk" <> RequestException text)
  /\ records (runtime (snd (@get _ (scripted (inr (ValueError "bad chunk")))
                                 "items" None start)))
     = [record_of start DEBUG "method=GET, url=https://host/v1/items, params=[]"].
Proof.
  assert (Hother : forall text, ValueError "bad chunk" <> RequestException text)
    by (intros text; discriminate).
  split; [reflexivity | split; [exact Hother |]].
  exact (proj1 (proj2 (@_do_does_not_log_other_exceptions
                         _ (scripted (inr (ValueError "bad chunk")))
                         start "GET" "items" None None (ValueError "bad chunk")
                         [request_of start "GET" "items" None None] eq_refl Hother))).
Defined.

(** A POST whose method, URL, endpoint and parameters have no brace. *)
Lemma _do_with_brace_free_inputs_witness :
  transmit start "POST" "items" (Some [("page", Py.Int 2)]) (Some [("name", Py.Str "{tea}")])
  = (inl ok_200,
     [request_of start "POST" "items" (Some [("page", Py.Int 2)])
                 (Some [("name", Py.Str "{tea}")])])
  /\ brace_free "POST" = true
  /\ brace_free (url (self start)) = true
  /\ brace_free "items" = true
  /\ params_brace_free (Some [("page", Py.Int 2)]) = true
  /\ fst (post "items" (Some [("page", Py.Int 2)]) (Some [("name", Py.Str "{tea}")]) start)
     = Return ok_200.
Proof.
  repeat (split; [reflexivity |]).
  exact (f_equal fst
           (_do_with_brace_free_inputs start "POST" "items" (Some [("page", Py.Int 2)])
              (Some [("name", Py.Str "{tea}")]) ok_200
              [request_of start "POST" "items" (Some [("page", Py.Int 2)])
                          (Some [("name", Py.Str "{tea}")])]
              eq_refl eq_refl eq_refl eq_refl eq_refl)).
Defined.

(** The label [warning] is logged at level 30. *)
Lemma log_uses_the_levels_of_the_constructor_witness :
  getitem levels (Py.upper "warning") = Some 30
  /\ Py.upper "warning" <> "CRITICAL"
  /\ log "warning" "low disk" start
     = (Return tt, emitted start [record_of start 30 "low disk"] []).
Proof.
  assert (Hnot : Py.upper "warning" <> "CRITICAL") by (vm_compute; discriminate).
  split; [reflexivity | split; [exact Hnot |]].
  exact (log_uses_the_levels_of_the_constructor start "warning" "low disk" 30 eq_refl Hnot).
Defined.

(** The level [verbose] is refused. *)
Lemma constructor_rejects_before_configuring_witness :
  ~ In (Py.upper "verbose") level_names
  /\ is_ascii "verbose" = true
  /\ @__init__ _ (scripted_files false None) "host" "secret" "v1" true None None
               "verbose" fresh
     = (Raise (ValueError "Invalid log level VERBOSE"), fresh).
Proof.
  assert (Hnot : ~ In (Py.upper "verbose") level_names).
  { vm_compute. intros H. decompose [or] H; try discriminate; assumption. }
  split; [exact Hnot | split; [reflexivity |]].
  destruct (@constructor_rejects_before_configuring
              _ (scripted_files false None) "host" "secret" "v1" true None None
              "verbose" fresh Hnot) as (msg & Hcall & Htext).
  rewrite Hcall, (Htext eq_refl). reflexivity.
Defined.


(** The first adapter configures the root logger at INFO; a second one, at
    DEBUG and with another file, leaves that configuration in place. *)
Lemma constructor_configures_logging_once_witness :
  root_config (snd (@__init__ _ (scripted_files true None) "host" "secret" "v1" true
                              None None "info" fresh))
  = Some (@config_for _ (scripted_files true None) None 20)
  /\ root_config
       (snd (@__init__ _ (scripted_files true None) "other" "secret" "" true None
                       (Some "other.log") "debug"
                       (snd (@__init__ _ (scripted_files true None) "host" "secret" "v1"
                                       true None None "info" fresh))))
     = Some (@config_for _ (scripted_files true None) None 20).
Proof.
  split.
  - destruct (@constructor_configures_logging_once
                _ (scripted_files true None) "host" "secret" "v1" true None None "info"
                fresh _ _ eq_refl) as (_ & n & Hn & Hcfg).
    injection Hn as <-. exact Hcfg.
  - destruct (@constructor_configures_logging_once
                _ (scripted_files true None) "other" "secret" "" true None
                (Some "other.log") "debug"
                (snd (@__init__ _ (scripted_files true None) "host" "secret" "v1"
                                true None None "info" fresh))
                _ _ eq_refl) as (_ & n & _ & Hcfg).
    exact Hcfg.
Defined.

(** With an existing log file a [touch] that would fail changes nothing, and
    with ssl_verify false the warnings are disabled last. *)
Lemma constructor_touches_missing_file_only_witness :
  @__init__ _ (scripted_files true (Some "read-only file system"))
            "host" "secret" "v1" true None None "info" fresh
  = @__init__ _ (scripted_files true None) "host" "secret" "v1" true None None "info" fresh
  /\ world (snd (@__init__ _ (scripted_files true None) "host" "secret" "v1" false
                           None None "info" fresh))
     = @disable_warnings _ (scripted_files true None) [].
Proof.
  pose proof (@constructor_touches_missing_file_only
                _ (scripted_files true None) "host" "secret" "v1" true None None "info"
                fresh) as (Htouch & _ & _ & Hdisable).
  split.
  - exact (Htouch eq_refl (fun _ w => (Some (OSError "read-only file system"), w))).
  - rewrite (Hdisable _ _ eq_refl). reflexivity.
Defined.

(** The log file is missing and cannot be created. *)
Lemma constructor_propagates_touch_failure_witness :
  In (Py.upper "debug") level_names
  /\ @__init__ _ (scripted_files false (Some "Permission denied"))
               "host" "secret" "" false None (Some "adapter.log") "debug" fresh
     = (Raise (OSError "Permission denied"), fresh).
Proof.
  assert (Hknown : In (Py.upper "debug") level_names) by (vm_compute; tauto).
  split; [exact Hknown |].
  exact (@constructor_propagates_touch_failure
           _ (scripted_files false (Some "Permission denied"))
           "host" "secret" "" false None (Some "adapter.log") "debug" fresh
           (OSError "Permission denied") [] Hknown eq_refl eq_refl).
Defined.

(** With the level [debug] and a log file whose name has a NUL, the
    constructor raises the [ValueError] of [touch]: the level check let the
    construction go on. *)
Example constructor_raises_for_nul_in_log_file :
  In (Py.upper "debug") level_names
  /\ @__init__ _ nul_files "host" "secret" "" true None (Some nul_name) "debug" fresh
     = (Raise (ValueError "embedded null byte"), fresh).
Proof. split; [vm_compute; tauto | vm_compute; reflexivity]. Qed.

(** With the log file [.], which exists and cannot be opened for writing,
    the constructor raises the [OSError] of [basicConfig], and the warnings
    are not disabled. *)
Example constructor_raises_when_log_file_cannot_be_opened :
  @__init__ _ directory_files "host" "secret" "" false None (Some ".") "debug" fresh
  = (Raise (OSError "Is a directory"), fresh).
Proof. vm_compute. reflexivity. Qed.

End Examples.
